(** * Identity resolution of the Google auth provider and provider set-up of
      the scaffolder plugin

    A shallow embedding of
    [plugins/auth-backend/src/providers/google/provider.ts]
    ([GoogleAuthProvider.populateIdentity], [handler], [refresh]) and of the
    scaffolder backend's [createPlugin], with the properties that the
    specification states about them.

    JavaScript strings are modelled as Rocq strings (byte sequences, read as
    UTF-8).  The only character the code inspects is [@] (0x40), which never
    occurs inside a multi-byte UTF-8 sequence, and emptiness of a string is
    the same in both readings. *)

From Stdlib Require Import Ascii.
From stdpp Require Import base option strings list gmap.

(** ** The JavaScript values the code handles *)

Module Js.

(** An [Error] object: the two properties the code reads. *)
Record Error := mkError { name : string; message : string }.

(** [new Error(msg)] *)
Definition newError (msg : string) : Error :=
  {| name := "Error"; message := msg |}.

(** [Error.prototype.toString], which a template literal [`${error}`]
    calls. *)
Definition toString (e : Error) : string :=
  if decide (name e = "") then message e
  else if decide (message e = "") then name e
  else name e +:+ ": " +:+ message e.

(** Truthiness of an optional string: [undefined] and [''] are falsy.
    [truthy o] is the string itself when [o] is truthy. *)
Definition truthy (o : option string) : option string :=
  match o with
  | None => None
  | Some s => if decide (s = "") then None else Some s
  end.

(** [s.split(sep)] for a one-character separator and no limit. *)
Fixpoint split (sep : ascii) (s : string) : list string :=
  match s with
  | EmptyString => [EmptyString]
  | String c rest =>
      if decide (c = sep) then EmptyString :: split sep rest
      else match split sep rest with
           | piece :: pieces => String c piece :: pieces
           | [] => [String c EmptyString]
           end
  end.

(** [xs[0]] on an array of strings; [split] never returns an empty array
    (lemma [split_cons] below), so the [undefined] of an empty array does
    not arise where the code indexes. *)
Definition first (xs : list string) : string :=
  match xs with
  | x :: _ => x
  | [] => ""
  end.

(** Does the character occur in the string? *)
Fixpoint occurs (c : ascii) (s : string) : bool :=
  match s with
  | EmptyString => false
  | String d rest => if decide (d = c) then true else occurs c rest
  end.

(** Is the character the first one of the string? *)
Definition beginsWith (c : ascii) (s : string) : bool :=
  match s with
  | EmptyString => false
  | String d _ => bool_decide (d = c)
  end.

(** [strict_equal (Some "development") v] is [v === 'development'] for an
    environment variable, which is a string or [undefined]. *)
Definition strict_equal (a b : option string) : bool :=
  bool_decide (a = b).

End Js.

(** ** Effects: a mutable world and exceptions

    A computation reads and updates a world of type [S] and either returns a
    value or throws.  What it did to the world before throwing stays done, as
    in JavaScript. *)

Module Eff.

Inductive outcome (A : Type) : Type :=
| Returned (a : A)
| Thrown (e : Js.Error).
Arguments Returned {A} a.
Arguments Thrown {A} e.

Definition eff (S A : Type) : Type := S -> outcome A * S.

Definition ret {S A} (a : A) : eff S A := fun s => (Returned a, s).

Definition bind {S A B} (m : eff S A) (k : A -> eff S B) : eff S B :=
  fun s =>
    match m s with
    | (Returned a, s') => k a s'
    | (Thrown e, s') => (Thrown e, s')
    end.

(** [throw e] *)
Definition throw {S A} (e : Js.Error) : eff S A := fun s => (Thrown e, s).

(** [try { body } catch (e) { handler(e) }] *)
Definition try_catch {S A} (body : eff S A) (handler : Js.Error -> eff S A)
  : eff S A :=
  fun s =>
    match body s with
    | (Returned a, s') => (Returned a, s')
    | (Thrown e, s') => handler e s'
    end.

(** A call of a function that may throw and has no effect on the world. *)
Definition lift {S A} (r : Js.Error + A) : eff S A :=
  match r with
  | inl e => throw e
  | inr a => ret a
  end.

(** An update of the world. *)
Definition modify {S} (f : S -> S) : eff S unit :=
  fun s => (Returned tt, f s).

#[global] Instance eff_ret {S} : MRet (eff S) := @ret S.
#[global] Instance eff_bind {S} : MBind (eff S) :=
  fun A B k m => bind m k.

End Eff.

Import Eff.

(** ** The Google auth provider *)

Module Google.

(** Modelled from the spec: the response types of [lib/oauth] and
    [providers/types], which the provider imports (spec section 3:
    ProviderTokenInfo, NormalizedProfile, ResolvedIdentity, AuthResponse).
    [backstageIdentity] is optional: the strategy's callback builds a
    response without it. *)
Record OAuthProviderInfo := {
  accessToken : string;
  idToken : option string;
  scope : string;
  expiresInSeconds : option Z
}.

Record ProfileInfo := {
  email : option string;
  displayName : option string;
  picture : option string
}.

Record BackstageIdentity := { id : string }.

Record OAuthResponse := {
  providerInfo : OAuthProviderInfo;
  profile : ProfileInfo;
  backstageIdentity : option BackstageIdentity
}.

(** The part of a catalog user entity that the provider reads:
    [user.metadata.name]. *)
Record EntityMeta := { name : string }.
Record UserEntity := { metadata : EntityMeta }.

(** The query [{ annotations: { ... } }] handed to the identity client. *)
Record UserQuery := { annotations : gmap string string }.

(** What the provider does to the outside world, in order: calls of
    [identityClient.findUser] and of [logger.warn]. *)
Inductive event :=
| FindUser (q : UserQuery)
| Warn (msg : string).

Definition trace := list event.

(** The id of the identity that a run resolved, when the run returned a
    response that carries one. *)
Definition resolvedId (o : outcome OAuthResponse) : option string :=
  match o with
  | Returned r => id <$> backstageIdentity r
  | Thrown _ => None
  end.

Definition warnings (t : trace) : list string :=
  omap (fun ev => match ev with Warn m => Some m | _ => None end) t.

Definition lookups (t : trace) : list UserQuery :=
  omap (fun ev => match ev with FindUser q => Some q | _ => None end) t.

Record PrivateInfo := { refreshToken : string }.

Record OAuthRefreshRequest := {
  req_refreshToken : string;
  req_scope : string
}.

(** [params] of the refresh-token strategy. *)
Record RefreshParams := {
  id_token : option string;
  expires_in : option Z;
  params_scope : string
}.

Record HandlerResult := {
  response : OAuthResponse;
  result_refreshToken : string
}.

(** The error of line 149. *)
Definition noEmailError : Js.Error :=
  Js.newError "Google profile contained no email".

(** The template literal of line 167. *)
Definition fallbackWarning (error : Js.Error) : string :=
  "Failed to look up user, " +:+ Js.toString error +:+
  ", falling back to allowing login based on email pattern, this will probably break in the future".

(** [{ ...response, backstageIdentity: { id } }] *)
Definition withIdentity (response : OAuthResponse) (i : string)
  : OAuthResponse :=
  {| providerInfo := providerInfo response;
     profile := profile response;
     backstageIdentity := Some {| id := i |} |}.

(** The response that [refresh] hands to [populateIdentity] (lines
    132-140). *)
Definition refreshed (accessToken : string) (params : RefreshParams)
    (profile : ProfileInfo) : OAuthResponse :=
  {| providerInfo :=
       {| accessToken := accessToken;
          idToken := id_token params;
          expiresInSeconds := expires_in params;
          scope := params_scope params |};
     profile := profile;
     backstageIdentity := None |}.

Section Provider.

(** The collaborators of the provider, whose code is outside this file:
    the catalog identity client (the identity directory) and the three
    passport helpers, each already applied to [this._strategy]. *)
Variable findUser : UserQuery -> Js.Error + UserEntity.
Variable Request : Type.
Variable executeFrameHandlerStrategy :
  Request -> Js.Error + (OAuthResponse * PrivateInfo).
Variable executeRefreshTokenStrategy :
  string -> string -> Js.Error + (string * RefreshParams).
Variable executeFetchUserProfileStrategy :
  string -> option string -> Js.Error + ProfileInfo.

(** [this.identityClient.findUser(q)]: the call is recorded, then the
    directory answers. *)
Definition identityClient_findUser (q : UserQuery) : eff trace UserEntity :=
  _ ← modify (fun t => t ++ [FindUser q]);
  lift (findUser q).

(** [this.logger.warn(msg)] *)
Definition logger_warn (msg : string) : eff trace unit :=
  modify (fun t => t ++ [Warn msg]).

Definition emailQuery (e : string) : UserQuery :=
  {| annotations := {[ "google.com/email" := e ]} |}.

Definition populateIdentity (response : OAuthResponse)
  : eff trace OAuthResponse :=
  let profile := profile response in
  match Js.truthy (email profile) with
  | None => throw noEmailError
  | Some profile_email =>
      try_catch
        (user ← identityClient_findUser (emailQuery profile_email);
         mret (withIdentity response (name (metadata user))))
        (fun error =>
           _ ← logger_warn (fallbackWarning error);
           mret (withIdentity response
                   (Js.first (Js.split "@" profile_email))))
  end.

Definition handler (req : Request) : eff trace HandlerResult :=
  '(response, privateInfo) ← lift (executeFrameHandlerStrategy req);
  populated ← populateIdentity response;
  mret {| response := populated;
          result_refreshToken := refreshToken privateInfo |}.

Definition refresh (req : OAuthRefreshRequest) : eff trace OAuthResponse :=
  '(accessToken, params) ←
    lift (executeRefreshTokenStrategy (req_refreshToken req) (req_scope req));
  profile ←
    lift (executeFetchUserProfileStrategy accessToken (id_token params));
  populateIdentity
    {| providerInfo :=
         {| accessToken := accessToken;
            idToken := id_token params;
            expiresInSeconds := expires_in params;
            scope := params_scope params |};
       profile := profile;
       backstageIdentity := None |}.

End Provider.

End Google.

(** ** The scaffolder plugin *)

Module Scaffolder.

(** The [Config] interface of the platform's configuration package, with
    the four readers [createPlugin] calls.  A reader throws when a required
    value is missing or has the wrong type. *)
Class ConfigApi (Config : Type) : Type := {
  getOptionalConfig : Config -> string -> Js.Error + option Config;
  getConfig : Config -> string -> Js.Error + Config;
  getString : Config -> string -> Js.Error + string;
  getOptionalString : Config -> string -> Js.Error + option string
}.

(** The three optional providers, and the [providerName] of each
    [catch] block. *)
Inductive provider := github | gitlab | azure.

Definition providerName (p : provider) : string :=
  match p with
  | github => "github"
  | gitlab => "gitlab"
  | azure => "azure"
  end.

Section Plugin.

Context {Config : Type} `{ConfigApi Config}.

(** The git client of the Azure DevOps SDK, and the network call
    [webApi.getGitApi()] that yields it or fails. *)
Context {GitApi : Type}.

(** The SDK objects, as records of what they are constructed from. *)
Record Octokit := { auth : string }.
Record Gitlab := { host : option string; token : string }.
Record PersonalAccessTokenHandler := { pat : string }.
Record WebApi := {
  serverUrl : string;
  authHandler : PersonalAccessTokenHandler
}.

Variable getGitApi : WebApi -> Js.Error + GitApi.

Inductive Templater := CookieCutter | CreateReactAppTemplater.

Inductive Preparer :=
| FilePreparer
| GitlabPreparer (config : Config)
| AzurePreparer (config : Config)
| GithubPreparer (token : string).

Inductive Publisher :=
| GithubPublisher (client : Octokit) (token : string)
    (repoVisibility : string)
| GitlabPublisher (client : Gitlab) (token : string)
| AzurePublisher (client : GitApi) (token : string).

Inductive Docker := newDocker.

(** Modelled from the spec: the registries [Preparers], [Templaters] and
    [Publishers] of the scaffolder backend, which section 1 describes as
    wiring providers by name; [register(key, value)] binds the key to the
    value, replacing an earlier binding. *)
Record world := {
  templaters : gmap string Templater;
  preparers : gmap string Preparer;
  publishers : gmap string Publisher;
  log : list string
}.

Definition templaters_register (k : string) (v : Templater)
  : eff world unit :=
  modify (fun w =>
    {| templaters := <[k := v]> (templaters w);
       preparers := preparers w;
       publishers := publishers w;
       log := log w |}).

Definition preparers_register (k : string) (v : Preparer)
  : eff world unit :=
  modify (fun w =>
    {| templaters := templaters w;
       preparers := <[k := v]> (preparers w);
       publishers := publishers w;
       log := log w |}).

Definition publishers_register (k : string) (v : Publisher)
  : eff world unit :=
  modify (fun w =>
    {| templaters := templaters w;
       preparers := preparers w;
       publishers := <[k := v]> (publishers w);
       log := log w |}).

(** The world after [logger.warn(msg)]. *)
Definition warned (w : world) (msg : string) : world :=
  {| templaters := templaters w;
     preparers := preparers w;
     publishers := publishers w;
     log := log w ++ [msg] |}.

(** [logger.warn(msg)] *)
Definition logger_warn (msg : string) : eff world unit :=
  modify (fun w => warned w msg).

(** What [createRouter] receives. *)
Record RouterOptions := {
  opt_preparers : gmap string Preparer;
  opt_templaters : gmap string Templater;
  opt_publishers : gmap string Publisher;
  opt_dockerClient : Docker
}.

Context {Router : Type}.
Variable createRouter : RouterOptions -> Js.Error + Router.

(** The value of [process.env.NODE_ENV]. *)
Variable NODE_ENV : option string.

Definition failedToInitialize (providerName : string) (e : Js.Error)
  : Js.Error :=
  Js.newError ("Failed to initialize " +:+ providerName +:+
               " scaffolding provider, " +:+ Js.message e).

Definition skipping (providerName : string) (e : Js.Error) : string :=
  "Skipping " +:+ providerName +:+ " scaffolding provider, " +:+
  Js.message e.

(** The body of the three [catch (e)] blocks (lines 286-297, 311-322 and
    337-348), which differ in [providerName] only. *)
Definition catchBlock (providerName : string) (e : Js.Error)
  : eff world unit :=
  if negb (Js.strict_equal NODE_ENV (Some "development"))
  then throw (failedToInitialize providerName e)
  else logger_warn (skipping providerName e).

(** The [try] block of lines 268-286. *)
Definition githubTry (githubConfig : Config) : eff world unit :=
  repoVisibility ← lift (getString githubConfig "visibility");
  githubToken ← lift (getString githubConfig "token");
  let githubClient := {| auth := githubToken |} in
  let githubPublisher :=
    GithubPublisher githubClient githubToken repoVisibility in
  let githubPreparer := GithubPreparer githubToken in
  _ ← preparers_register "github" githubPreparer;
  _ ← publishers_register "file" githubPublisher;
  publishers_register "github" githubPublisher.

(** The [try] block of lines 302-311. *)
Definition gitlabTry (gitLabConfig : Config) : eff world unit :=
  gitLabToken ← lift (getString gitLabConfig "token");
  baseUrl ← lift (getOptionalString gitLabConfig "baseUrl");
  let gitLabClient := {| host := baseUrl; token := gitLabToken |} in
  let gitLabPublisher := GitlabPublisher gitLabClient gitLabToken in
  _ ← publishers_register "gitlab" gitLabPublisher;
  publishers_register "gitlab/api" gitLabPublisher.

(** The [try] block of lines 327-337. *)
Definition azureTry (azureConfig : Config) : eff world unit :=
  baseUrl ← lift (getString azureConfig "baseUrl");
  api ← lift (getConfig azureConfig "api");
  azureToken ← lift (getString api "token");
  let authHandler := {| pat := azureToken |} in
  let webApi := {| serverUrl := baseUrl; authHandler := authHandler |} in
  azureClient ← lift (getGitApi webApi);
  let azurePublisher := AzurePublisher azureClient azureToken in
  publishers_register "azure/api" azurePublisher.

Definition configKey (p : provider) : string :=
  match p with
  | github => "scaffolder.github"
  | gitlab => "scaffolder.gitlab.api"
  | azure => "scaffolder.azure"
  end.

Definition tryBlock (p : provider) : Config -> eff world unit :=
  match p with
  | github => githubTry
  | gitlab => gitlabTry
  | azure => azureTry
  end.

(** One provider block: [const c = config.getOptionalConfig(key);
    if (c) { try { ... } catch (e) { ... } }]. *)
Definition providerBlock (p : provider) (config : Config)
  : eff world unit :=
  optionalConfig ← lift (getOptionalConfig config (configKey p));
  match optionalConfig with
  | Some providerConfig =>
      try_catch (tryBlock p providerConfig) (catchBlock (providerName p))
  | None => mret tt
  end.

(** [new Templaters()], [new Preparers()], [new Publishers()]: the
    registries are local to one call of [createPlugin] and start empty;
    the logger comes with the environment. *)
Definition newRegistries : eff world unit :=
  modify (fun w =>
    {| templaters := ∅; preparers := ∅; publishers := ∅; log := log w |}).

(** The registries as they are at this point of the run. *)
Definition registries : eff world world := fun w => (Returned w, w).

Definition createPlugin (config : Config) : eff world Router :=
  _ ← newRegistries;
  let cookiecutterTemplater := CookieCutter in
  let craTemplater := CreateReactAppTemplater in
  _ ← templaters_register "cookiecutter" cookiecutterTemplater;
  _ ← templaters_register "cra" craTemplater;
  let filePreparer := FilePreparer in
  let gitlabPreparer := GitlabPreparer config in
  let azurePreparer := AzurePreparer config in
  _ ← preparers_register "file" filePreparer;
  _ ← preparers_register "gitlab" gitlabPreparer;
  _ ← preparers_register "gitlab/api" gitlabPreparer;
  _ ← preparers_register "azure/api" azurePreparer;
  _ ← providerBlock github config;
  _ ← providerBlock gitlab config;
  _ ← providerBlock azure config;
  let dockerClient := newDocker in
  w ← registries;
  lift (createRouter
          {| opt_preparers := preparers w;
             opt_templaters := templaters w;
             opt_publishers := publishers w;
             opt_dockerClient := dockerClient |}).

(** The options that [createPlugin] hands to [createRouter] (lines 352-358)
    when the registries are those of [w]. *)
Definition routerOptions (w : world) : RouterOptions :=
  {| opt_preparers := preparers w;
     opt_templaters := templaters w;
     opt_publishers := publishers w;
     opt_dockerClient := newDocker |}.

End Plugin.

End Scaffolder.

(** ** Concrete collaborators

    Small stand-ins for the collaborators that the code receives from
    outside, used to run the definitions above on the scenarios of the
    specification. *)

Module Scenarios.

Import Google.

Definition notFound : Js.Error :=
  {| Js.name := "NotFoundError"; Js.message := "User not found" |}.

(** An identity directory backed by a finite map from e-mail address to
    entity name; an address it does not hold is reported as not found. *)
Definition directory (entries : gmap string string)
  : UserQuery -> Js.Error + UserEntity :=
  fun q =>
    match annotations q !! "google.com/email" with
    | Some address =>
        match entries !! address with
        | Some n => inr {| metadata := {| name := n |} |}
        | None => inl notFound
        end
    | None => inl notFound
    end.

Definition catalog : gmap string string := {[ "bob@co.com" := "u-bob" ]}.

Definition tokens : OAuthProviderInfo :=
  {| accessToken := "access-1";
     idToken := Some "id-1";
     scope := "openid email";
     expiresInSeconds := Some 3600%Z |}.

Definition responseFor (address : option string) : OAuthResponse :=
  {| providerInfo := tokens;
     profile := {| email := address;
                   displayName := Some "A User";
                   picture := None |};
     backstageIdentity := None |}.

(** Passport stand-ins: the request of the frame handler carries the
    address that the provider reports; a refresh token stands for the
    address of its owner. *)
Definition frameHandler (req : option string)
  : Js.Error + (OAuthResponse * PrivateInfo) :=
  inr (responseFor req, {| refreshToken := "refresh-1" |}).

Definition refreshToken_ (token requested : string)
  : Js.Error + (string * RefreshParams) :=
  inr (token, {| id_token := Some "id-2";
                 expires_in := Some 3600%Z;
                 params_scope := requested |}).

Definition fetchProfile (access : string) (_ : option string)
  : Js.Error + ProfileInfo :=
  inr {| email := Some access; displayName := None; picture := None |}.

(** An in-memory configuration: a tree of objects with string leaves, read
    by dotted keys. *)
Inductive json :=
| JString (s : string)
| JObject (members : object)
with object :=
| End_
| Member (key : string) (value : json) (rest : object).

Fixpoint field (k : string) (members : object) : option json :=
  match members with
  | End_ => None
  | Member k' v rest => if decide (k' = k) then Some v else field k rest
  end.

Fixpoint at_path (j : json) (path : list string) : option json :=
  match path with
  | [] => Some j
  | k :: rest =>
      match j with
      | JObject members =>
          match field k members with
          | Some j' => at_path j' rest
          | None => None
          end
      | JString _ => None
      end
  end.

Definition read (j : json) (key : string) : option json :=
  at_path j (Js.split "." key).

Definition missing (key : string) : Js.Error :=
  Js.newError ("Missing required config value at '" +:+ key +:+ "'").

Definition invalid (key : string) : Js.Error :=
  {| Js.name := "TypeError";
     Js.message := "Invalid type in config for key '" +:+ key +:+ "'" |}.

#[global] Instance treeConfig : Scaffolder.ConfigApi json := {|
  Scaffolder.getOptionalConfig j key :=
    match read j key with
    | None => inr None
    | Some (JObject fields) => inr (Some (JObject fields))
    | Some (JString _) => inl (invalid key)
    end;
  Scaffolder.getConfig j key :=
    match read j key with
    | None => inl (missing key)
    | Some (JObject fields) => inr (JObject fields)
    | Some (JString _) => inl (invalid key)
    end;
  Scaffolder.getString j key :=
    match read j key with
    | None => inl (missing key)
    | Some (JString s) => inr s
    | Some (JObject _) => inl (invalid key)
    end;
  Scaffolder.getOptionalString j key :=
    match read j key with
    | None => inr None
    | Some (JString s) => inr (Some s)
    | Some (JObject _) => inl (invalid key)
    end
|}.

Definition only (key : string) (value : json) : json :=
  JObject (Member key value End_).

(** A [scaffolder.github] section that lacks its [token]. *)
Definition githubWithoutToken : json :=
  only "scaffolder" (only "github" (only "visibility" (JString "public"))).

(** A GitLab section without token, and an Azure section without its
    [api] part. *)
Definition gitlabWithoutToken : json :=
  only "scaffolder"
    (only "gitlab"
       (only "api" (only "baseUrl" (JString "https://gitlab.local")))).

Definition azureWithoutApi : json :=
  only "scaffolder"
    (only "azure" (only "baseUrl" (JString "https://dev.azure.local/org"))).

Definition sectionOf (p : Scaffolder.provider) : json :=
  match p with
  | Scaffolder.github => githubWithoutToken
  | Scaffolder.gitlab => gitlabWithoutToken
  | Scaffolder.azure => azureWithoutApi
  end.

(** The git client of a server is stood for by the server's address. *)
Definition gitApiOf (api : Scaffolder.WebApi) : Js.Error + string :=
  inr (Scaffolder.serverUrl api).

(** A router is stood for by the options it was created from. *)
Definition routerOf (options : @Scaffolder.RouterOptions json string)
  : Js.Error + @Scaffolder.RouterOptions json string :=
  inr options.

Definition emptyWorld : @Scaffolder.world json string :=
  {| Scaffolder.templaters := ∅;
     Scaffolder.preparers := ∅;
     Scaffolder.publishers := ∅;
     Scaffolder.log := [] |}.

End Scenarios.

(** ** The strategy callback of the provider's constructor *)

Module GoogleStrategy.

Import Google.

Section Verify.

(** The raw passport profile, and [makeProfileInfo] of [lib/passport],
    which normalizes it. *)
Variable RawProfile : Type.
Variable makeProfileInfo : RawProfile -> option string -> ProfileInfo.

(** The verify callback of lines 69-92; its result is what it passes to
    [done]: the response and the private information. *)
Definition verify (accessToken refreshToken : string) (params : RefreshParams)
    (rawProfile : RawProfile) : OAuthResponse * PrivateInfo :=
  let profile := makeProfileInfo rawProfile (id_token params) in
  ({| providerInfo :=
        {| idToken := id_token params;
           accessToken := accessToken;
           scope := params_scope params;
           expiresInSeconds := expires_in params |};
      profile := profile;
      backstageIdentity := None |},
   {| refreshToken := refreshToken |}).

End Verify.

End GoogleStrategy.

(** ** What the provider blocks of the scaffolder register *)

Module Registrations.

Import Scaffolder.

(** The keys under which the [try] block of a provider registers. *)
Definition preparerKeys (p : provider) : list string :=
  match p with
  | github => ["github"]
  | gitlab => []
  | azure => []
  end.

(** The place of a provider's block in [createPlugin]. *)
Definition position (p : provider) : nat :=
  match p with
  | github => 0
  | gitlab => 1
  | azure => 2
  end.

Definition publisherKeys (p : provider) : list string :=
  match p with
  | github => ["file"; "github"]
  | gitlab => ["gitlab"; "gitlab/api"]
  | azure => ["azure/api"]
  end.

Section Plugin.

Context {Config : Type} `{ConfigApi Config} {GitApi : Type}.

(** The registries as lines 246-263 leave them, before the first provider
    block. *)
Definition baseTemplaters : gmap string Templater :=
  <["cra" := CreateReactAppTemplater]> (<["cookiecutter" := CookieCutter]> ∅).

Definition basePreparers (config : Config) : gmap string (@Preparer Config) :=
  <["azure/api" := AzurePreparer config]>
    (<["gitlab/api" := GitlabPreparer config]>
       (<["gitlab" := GitlabPreparer config]>
          (<["file" := FilePreparer]> ∅))).

Definition baseWorld (config : Config) (w : @world Config GitApi)
  : @world Config GitApi :=
  {| templaters := baseTemplaters;
     preparers := basePreparers config;
     publishers := ∅;
     log := log w |}.

(** The world after the registrations that end each [try] block (lines
    281-285, 308-310 and 335-336). *)
Definition githubRegistered (repoVisibility githubToken : string)
    (w : @world Config GitApi) : @world Config GitApi :=
  let githubPublisher :=
    GithubPublisher {| auth := githubToken |} githubToken repoVisibility in
  {| templaters := templaters w;
     preparers := <["github" := GithubPreparer githubToken]> (preparers w);
     publishers :=
       <["github" := githubPublisher]>
         (<["file" := githubPublisher]> (publishers w));
     log := log w |}.

Definition gitlabRegistered (baseUrl : option string) (gitLabToken : string)
    (w : @world Config GitApi) : @world Config GitApi :=
  let gitLabPublisher :=
    GitlabPublisher {| host := baseUrl; token := gitLabToken |} gitLabToken in
  {| templaters := templaters w;
     preparers := preparers w;
     publishers :=
       <["gitlab/api" := gitLabPublisher]>
         (<["gitlab" := gitLabPublisher]> (publishers w));
     log := log w |}.

Definition azureRegistered (azureClient : GitApi) (azureToken : string)
    (w : @world Config GitApi) : @world Config GitApi :=
  {| templaters := templaters w;
     preparers := preparers w;
     publishers :=
       <["azure/api" := AzurePublisher azureClient azureToken]> (publishers w);
     log := log w |}.

(** None of the keys of a provider is bound in [w]. *)
Definition unbound (p : provider) (w : @world Config GitApi) : Prop :=
  (∀ k, k ∈ publisherKeys p → publishers w !! k = None) ∧
  (∀ k, k ∈ preparerKeys p → preparers w !! k = None).

End Plugin.

End Registrations.

(** ** Further concrete collaborators *)

Module Fixtures.

Import Google Scenarios.

Definition handshakeError : Js.Error :=
  {| Js.name := "InternalOAuthError";
     Js.message := "Failed to obtain access token" |}.

(** Strategies that fail at each of the three steps. *)
Definition failingFrameHandler (_ : option string)
  : Js.Error + (OAuthResponse * PrivateInfo) :=
  inl handshakeError.

Definition failingRefreshToken (_ _ : string)
  : Js.Error + (string * RefreshParams) :=
  inl handshakeError.

Definition failingFetchProfile (_ : string) (_ : option string)
  : Js.Error + ProfileInfo :=
  inl handshakeError.

(** A profile normalizer on raw profiles that are just an address. *)
Definition profileOfAddress (raw : string) (_ : option string) : ProfileInfo :=
  {| email := Some raw; displayName := None; picture := None |}.

Definition grantedParams : RefreshParams :=
  {| id_token := Some "id-3";
     expires_in := Some 3599%Z;
     params_scope := "openid email profile" |}.

(** A frame handler whose strategy ran the verify callback on a request that
    is the user's address. *)
Definition verifiedFrameHandler (req : string)
  : Js.Error + (OAuthResponse * PrivateInfo) :=
  inr (GoogleStrategy.verify string profileOfAddress "access-3" "refresh-3"
         grantedParams req).

(** A response that already carries an identity. *)
Definition staleResponse (address : option string) : OAuthResponse :=
  {| providerInfo := tokens;
     profile := {| email := address;
                   displayName := Some "A User";
                   picture := None |};
     backstageIdentity := Some {| id := "stale" |} |}.

Definition object2 (k1 : string) (v1 : json) (k2 : string) (v2 : json) : json :=
  JObject (Member k1 v1 (Member k2 v2 End_)).

(** No [scaffolder] section at all. *)
Definition noSections : json := JObject End_.

(** The three sections, each complete. *)
Definition githubSection : json :=
  object2 "visibility" (JString "public") "token" (JString "gh-token").

Definition gitlabSection : json :=
  object2 "baseUrl" (JString "https://gitlab.local")
          "token" (JString "gl-token").

Definition azureSection : json :=
  object2 "baseUrl" (JString "https://dev.azure.local/org")
          "api" (only "token" (JString "az-token")).

Definition githubOnly : json := only "scaffolder" (only "github" githubSection).

Definition gitlabOnly : json :=
  only "scaffolder" (only "gitlab" (only "api" gitlabSection)).

Definition azureOnly : json := only "scaffolder" (only "azure" azureSection).

(** A [scaffolder.github] entry that is a string, not a section. *)
Definition githubNotASection : json :=
  only "scaffolder" (only "github" (JString "gh-token")).

(** All three sections present and all three incomplete. *)
Definition allIncomplete : json :=
  only "scaffolder"
    (JObject
       (Member "github" (only "visibility" (JString "public"))
          (Member "gitlab" (only "api" (JObject End_))
             (Member "azure" (JObject End_) End_)))).

Definition incompleteSection (p : Scaffolder.provider) : json :=
  match p with
  | Scaffolder.github => only "visibility" (JString "public")
  | Scaffolder.gitlab => JObject End_
  | Scaffolder.azure => JObject End_
  end.

Definition incompleteError (p : Scaffolder.provider) : Js.Error :=
  match p with
  | Scaffolder.github => missing "token"
  | Scaffolder.gitlab => missing "token"
  | Scaffolder.azure => missing "baseUrl"
  end.

(** A git client factory that cannot reach the server. *)
Definition unreachable (_ : Scaffolder.WebApi) : Js.Error + string :=
  inl (Js.newError "connect ECONNREFUSED").

End Fixtures.

(** ** The provider against a directory that changes

    The identity directory is a service with a state of its own: entries
    come and go, and a lookup may time out now and answer later.  Here the
    world holds that state beside the record of events, and what
    [findUser] answers depends on it; a lookup may also leave the directory
    in another state.  [populateIdentity] is the same code as above. *)

Module LiveDirectory.

Import Google.

Section Provider.

Variable Directory : Type.
Variable findUser :
  Directory -> UserQuery -> (Js.Error + UserEntity) * Directory.

Record world := {
  directory : Directory;
  events : trace
}.

(** [this.identityClient.findUser(q)]: the call is recorded, the directory
    answers from the state it is in, and moves to its next state. *)
Definition identityClient_findUser (q : UserQuery) : eff world UserEntity :=
  fun w =>
    let '(answer, next) := findUser (directory w) q in
    lift answer {| directory := next; events := events w ++ [FindUser q] |}.

(** [this.logger.warn(msg)] *)
Definition logger_warn (msg : string) : eff world unit :=
  modify (fun w =>
    {| directory := directory w; events := events w ++ [Warn msg] |}).

Definition populateIdentity (response : OAuthResponse)
  : eff world OAuthResponse :=
  let profile := profile response in
  match Js.truthy (email profile) with
  | None => throw noEmailError
  | Some profile_email =>
      try_catch
        (user ← identityClient_findUser (emailQuery profile_email);
         mret (withIdentity response (name (metadata user))))
        (fun error =>
           _ ← logger_warn (fallbackWarning error);
           mret (withIdentity response
                   (Js.first (Js.split "@" profile_email))))
  end.

(** What the directory answers to [q] in the state of [w]. *)
Definition answer (w : world) (q : UserQuery) : Js.Error + UserEntity :=
  fst (findUser (directory w) q).

End Provider.

End LiveDirectory.

(** Two directories with a state. *)

Module LiveFixtures.

Import Google Scenarios.

(** A directory whose state is its table of entries, which a lookup
    leaves as it is. *)
Definition tableDirectory (entries : gmap string string) (q : UserQuery)
  : (Js.Error + UserEntity) * gmap string string :=
  (directory entries q, entries).

Definition timeout : Js.Error :=
  {| Js.name := "FetchError"; Js.message := "network timeout" |}.

(** A directory that holds [catalog] and times out on the first lookup: its
    state tells whether it has been reached before. *)
Definition coldDirectory (reached : bool) (q : UserQuery)
  : (Js.Error + UserEntity) * bool :=
  if reached then (directory catalog q, true) else (inl timeout, true).

End LiveFixtures.

(** * Properties *)

(** ** [split] and indexing *)

Module JsFacts.

Import Js.

Lemma split_cons sep s : ∃ x xs, split sep s = x :: xs.
Proof.
  induction s as [|c rest IH]; simpl; [by eauto|].
  destruct (decide (c = sep)); [by eauto|].
  destruct IH as (x & xs & ->). by eauto.
Qed.

(** The pieces of [l ++ sep ++ r], where [l] is free of [sep]: [l], then
    the pieces of [r]. *)
Lemma split_at_first sep l r :
  occurs sep l = false →
  split sep (l +:+ String sep r) = l :: split sep r.
Proof.
  induction l as [|c l IH]; simpl; intros Hfree.
  - by rewrite decide_True.
  - destruct (decide (c = sep)); [done|]. by rewrite IH.
Qed.

Lemma split_without sep s : occurs sep s = false → split sep s = [s].
Proof.
  induction s as [|c s IH]; simpl; intros Hfree; [done|].
  destruct (decide (c = sep)); [done|]. by rewrite IH.
Qed.

Lemma first_split_at_first sep l r :
  occurs sep l = false → first (split sep (l +:+ String sep r)) = l.
Proof. intros Hfree. by rewrite split_at_first. Qed.

Lemma first_split_without sep s :
  occurs sep s = false → first (split sep s) = s.
Proof. intros Hfree. by rewrite split_without. Qed.

(** The first piece is empty exactly for the empty string and for a
    string that begins with the separator. *)
Lemma first_split_empty sep s :
  first (split sep s) = "" ↔ s = "" ∨ beginsWith sep s = true.
Proof.
  destruct s as [|c rest]; simpl; [by intuition|].
  destruct (decide (c = sep)) as [->|Hne]; simpl.
  - rewrite bool_decide_eq_true. by intuition.
  - destruct (split_cons sep rest) as (x & xs & ->); simpl.
    rewrite bool_decide_eq_true. split; [done|]. by intros [?|?].
Qed.

Lemma truthy_Some o s : truthy o = Some s ↔ o = Some s ∧ s ≠ "".
Proof.
  destruct o as [x|]; simpl; [|by intuition].
  destruct (decide (x = "")) as [->|Hne]; split.
  - done.
  - intros [[= ->] Hne]. done.
  - intros [= ->]. done.
  - intros [[= ->] _]. done.
Qed.

Lemma truthy_None o : truthy o = None ↔ o = None ∨ o = Some "".
Proof.
  destruct o as [x|]; simpl; [|by intuition].
  destruct (decide (x = "")) as [->|Hne]; split; try done.
  - by right.
  - intros [?|[= ?]]; done.
Qed.

End JsFacts.

(** ** Identity resolution *)

Module GoogleSpec.

Import Google JsFacts.

Lemma warnings_app t1 t2 : warnings (t1 ++ t2) = warnings t1 ++ warnings t2.
Proof. apply omap_app. Qed.

Lemma lookups_app t1 t2 : lookups (t1 ++ t2) = lookups t1 ++ lookups t2.
Proof. apply omap_app. Qed.

(** The message of the warning quotes the error it reports. *)
Lemma fallbackWarning_quotes error :
  ∃ before after,
    fallbackWarning error = before +:+ Js.toString error +:+ after.
Proof. unfold fallbackWarning. by eauto. Qed.

Section Provider.

Variable findUser : UserQuery -> Js.Error + UserEntity.
Variable Request : Type.
Variable executeFrameHandlerStrategy :
  Request -> Js.Error + (OAuthResponse * PrivateInfo).
Variable executeRefreshTokenStrategy :
  string -> string -> Js.Error + (string * RefreshParams).
Variable executeFetchUserProfileStrategy :
  string -> option string -> Js.Error + ProfileInfo.

#[local] Abbreviation populateIdentity := (populateIdentity findUser).
#[local] Abbreviation handler :=
  (handler findUser Request executeFrameHandlerStrategy).
#[local] Abbreviation refresh :=
  (refresh findUser executeRefreshTokenStrategy
     executeFetchUserProfileStrategy).

(** The three ways through [populateIdentity]. *)
Lemma populateIdentity_run response t :
  populateIdentity response t =
  match Js.truthy (email (profile response)) with
  | None => (Thrown noEmailError, t)
  | Some e =>
      match findUser (emailQuery e) with
      | inr user =>
          (Returned (withIdentity response (name (metadata user))),
           t ++ [FindUser (emailQuery e)])
      | inl error =>
          (Returned (withIdentity response (Js.first (Js.split "@" e))),
           t ++ [FindUser (emailQuery e); Warn (fallbackWarning error)])
      end
  end.
Proof.
  unfold Google.populateIdentity.
  destruct (Js.truthy (email (profile response))) as [e|]; [|done].
  unfold try_catch, identityClient_findUser, logger_warn, mbind, eff_bind,
    bind, modify, lift; simpl.
  destruct (findUser (emailQuery e)) as [error|user]; simpl; [|done].
  by rewrite <- app_assoc.
Qed.

Lemma populateIdentity_missing response t :
  Js.truthy (email (profile response)) = None →
  populateIdentity response t = (Thrown noEmailError, t).
Proof. intros Hno. by rewrite populateIdentity_run, Hno. Qed.

Lemma populateIdentity_found response t e user :
  Js.truthy (email (profile response)) = Some e →
  findUser (emailQuery e) = inr user →
  populateIdentity response t =
  (Returned (withIdentity response (name (metadata user))),
   t ++ [FindUser (emailQuery e)]).
Proof. intros He Hu. by rewrite populateIdentity_run, He, Hu. Qed.

Lemma populateIdentity_not_found response t e error :
  Js.truthy (email (profile response)) = Some e →
  findUser (emailQuery e) = inl error →
  populateIdentity response t =
  (Returned (withIdentity response (Js.first (Js.split "@" e))),
   t ++ [FindUser (emailQuery e); Warn (fallbackWarning error)]).
Proof. intros He Hu. by rewrite populateIdentity_run, He, Hu. Qed.

(** Whatever [populateIdentity] returns is the input with an identity. *)
Lemma populateIdentity_returned response t out t' :
  populateIdentity response t = (Returned out, t') →
  ∃ i, out = withIdentity response i.
Proof.
  rewrite populateIdentity_run.
  destruct (Js.truthy (email (profile response))) as [e|]; [|done].
  destruct (findUser (emailQuery e)); intros [= <- _]; by eauto.
Qed.

(** Whatever [populateIdentity] throws is its own error, for a missing
    e-mail address. *)
Lemma populateIdentity_thrown response t error t' :
  populateIdentity response t = (Thrown error, t') →
  error = noEmailError ∧ Js.truthy (email (profile response)) = None.
Proof.
  rewrite populateIdentity_run.
  destruct (Js.truthy (email (profile response))) as [e|].
  - destruct (findUser (emailQuery e)); intros [=].
  - by intros [= <- _].
Qed.

(** C1 (as amended): for a response whose profile has a non-empty e-mail
    address, [populateIdentity] returns a response that carries an
    identity, whether the directory lookup succeeds or fails.  The id is
    the entity name on success and the first [@]-piece of the address on
    failure; it is non-empty when the lookup succeeds with a non-empty
    name, and when the lookup fails and the address does not begin
    with [@]. *)
Theorem populateIdentity_identity_present response t e :
  email (profile response) = Some e → e ≠ "" →
  ∃ out t' i,
    populateIdentity response t = (Returned out, t') ∧
    backstageIdentity out = Some {| id := i |} ∧
    match findUser (emailQuery e) with
    | inr user =>
        i = name (metadata user) ∧ (name (metadata user) ≠ "" → i ≠ "")
    | inl _ =>
        i = Js.first (Js.split "@" e) ∧
        (Js.beginsWith "@" e = false → i ≠ "")
    end.
Proof.
  intros He Hne.
  assert (Js.truthy (email (profile response)) = Some e) as Ht
    by by apply truthy_Some.
  rewrite populateIdentity_run, Ht.
  destruct (findUser (emailQuery e)) as [error|user].
  - eexists _, _, _. split; [done|]. split; [done|]. split; [done|].
    intros Hb Hempty. apply first_split_empty in Hempty as [?|Hb'].
    + done.
    + by rewrite Hb in Hb'.
  - eexists _, _, _. by repeat split.
Qed.

(** C2: when the e-mail address of the profile is absent or empty,
    [populateIdentity] throws the error "Google profile contained no
    email", and leaves the world as it was: no directory lookup, no
    warning. *)
Theorem populateIdentity_no_email response t :
  email (profile response) = None ∨ email (profile response) = Some "" →
  populateIdentity response t = (Thrown noEmailError, t) ∧
  Js.message noEmailError = "Google " +:+ "profile contained no email" ∧
  lookups (snd (populateIdentity response t)) = lookups t ∧
  warnings (snd (populateIdentity response t)) = warnings t.
Proof.
  intros Hno. apply truthy_None in Hno.
  rewrite populateIdentity_missing by done. by repeat split.
Qed.

(** C3: when the directory lookup for the address [e] fails,
    [populateIdentity] returns all the same; the id is the part of [e]
    before the [@] separator, and one warning is logged, which quotes
    the error of the lookup.  (The lookup is issued for non-empty
    addresses only.) *)
Theorem populateIdentity_fallback response t e error :
  email (profile response) = Some e → e ≠ "" →
  findUser (emailQuery e) = inl error →
  ∃ out t',
    populateIdentity response t = (Returned out, t') ∧
    resolvedId (Returned out) = Some (Js.first (Js.split "@" e)) ∧
    (∀ l r, e = l +:+ String "@" r → Js.occurs "@" l = false →
            resolvedId (Returned out) = Some l) ∧
    warnings t' = warnings t ++ [fallbackWarning error] ∧
    lookups t' = lookups t ++ [emailQuery e] ∧
    ∃ before after,
      fallbackWarning error = before +:+ Js.toString error +:+ after.
Proof.
  intros He Hne Herr.
  assert (Js.truthy (email (profile response)) = Some e) as Ht
    by by apply truthy_Some.
  eexists _, _. split; [by apply populateIdentity_not_found|].
  split; [done|]. split; [|split; [|split]].
  - intros l r -> Hfree. simpl. by rewrite first_split_at_first.
  - by rewrite warnings_app.
  - by rewrite lookups_app.
  - apply fallbackWarning_quotes.
Qed.

(** C4: when the directory lookup for the address [e] succeeds with a
    user entity, the id of the returned response is the name of that
    entity; the fallback is not taken and nothing is logged. *)
Theorem populateIdentity_directory response t e user :
  email (profile response) = Some e → e ≠ "" →
  findUser (emailQuery e) = inr user →
  ∃ out t',
    populateIdentity response t = (Returned out, t') ∧
    resolvedId (Returned out) = Some (name (metadata user)) ∧
    warnings t' = warnings t ∧
    lookups t' = lookups t ++ [emailQuery e].
Proof.
  intros He Hne Hu.
  assert (Js.truthy (email (profile response)) = Some e) as Ht
    by by apply truthy_Some.
  eexists _, _. split; [by apply populateIdentity_found|].
  split; [done|]. split.
  - rewrite warnings_app. simpl. by rewrite app_nil_r.
  - by rewrite lookups_app.
Qed.

(** C5: with an e-mail address present, [populateIdentity] returns a
    response whatever the directory lookup does; and the only error that
    [populateIdentity] ever throws is the one for a missing address. *)
Theorem populateIdentity_lookup_error_recovered response t :
  (∀ e, email (profile response) = Some e → e ≠ "" →
        ∃ out t', populateIdentity response t = (Returned out, t')) ∧
  (∀ error t', populateIdentity response t = (Thrown error, t') →
               error = noEmailError ∧
               (email (profile response) = None ∨
                email (profile response) = Some "")).
Proof.
  split.
  - intros e He Hne.
    assert (Js.truthy (email (profile response)) = Some e) as Ht
      by by apply truthy_Some.
    rewrite populateIdentity_run, Ht.
    destruct (findUser (emailQuery e)); by eauto.
  - intros error t' Hthrown.
    apply populateIdentity_thrown in Hthrown as [-> Hno].
    split; [done|]. by apply truthy_None.
Qed.

(** C7: a response that [populateIdentity] returns has the provider
    information and the profile of the input, unchanged, and carries an
    identity: it is the input with the identity set. *)
Theorem populateIdentity_frame response t out t' :
  populateIdentity response t = (Returned out, t') →
  providerInfo out = providerInfo response ∧
  profile out = profile response ∧
  ∃ i, backstageIdentity out = Some i ∧ out = withIdentity response (id i).
Proof.
  intros Hrun. apply populateIdentity_returned in Hrun as [i ->].
  repeat split. by exists {| id := i |}.
Qed.

(** C9: when the lookup fails, the fallback returns for every non-empty
    address, well-formed or not; for an address without [@] the id is the
    whole address. *)
Theorem populateIdentity_fallback_without_at response t e error :
  email (profile response) = Some e → e ≠ "" →
  findUser (emailQuery e) = inl error →
  ∃ out t',
    populateIdentity response t = (Returned out, t') ∧
    (Js.occurs "@" e = false → resolvedId (Returned out) = Some e).
Proof.
  intros He Hne Herr.
  assert (Js.truthy (email (profile response)) = Some e) as Ht
    by by apply truthy_Some.
  eexists _, _. split; [by apply populateIdentity_not_found|].
  intros Hfree. simpl. by rewrite first_split_without.
Qed.

(** [handler] is the frame handler strategy followed by
    [populateIdentity]. *)
Lemma handler_run req t :
  handler req t =
  match executeFrameHandlerStrategy req with
  | inl error => (Thrown error, t)
  | inr (response, privateInfo) =>
      match populateIdentity response t with
      | (Returned populated, t') =>
          (Returned {| response := populated;
                       result_refreshToken := refreshToken privateInfo |},
           t')
      | (Thrown error, t') => (Thrown error, t')
      end
  end.
Proof.
  unfold Google.handler, mbind, eff_bind, bind, lift.
  destruct (executeFrameHandlerStrategy req) as [error|[response privateInfo]];
    [done|].
  simpl. by destruct (Google.populateIdentity findUser response t) as [[]].
Qed.

(** [refresh] is the two strategies followed by [populateIdentity]. *)
Lemma refresh_run req t :
  refresh req t =
  match executeRefreshTokenStrategy (req_refreshToken req) (req_scope req) with
  | inl error => (Thrown error, t)
  | inr (accessToken, params) =>
      match executeFetchUserProfileStrategy accessToken (id_token params) with
      | inl error => (Thrown error, t)
      | inr profile =>
          populateIdentity (refreshed accessToken params profile) t
      end
  end.
Proof.
  unfold Google.refresh, mbind, eff_bind, bind, lift.
  destruct (executeRefreshTokenStrategy _ _) as [error|[accessToken params]];
    [done|].
  simpl.
  by destruct (executeFetchUserProfileStrategy _ _) as [error|profile].
Qed.

(** C10: [handler] and [refresh] pass their response through
    [populateIdentity].  When its strategies succeed, [handler] is
    [populateIdentity] on the strategy's response, with the refresh token
    beside it, and [refresh] is [populateIdentity] on the response built
    from the new tokens and the fetched profile.  Hence with an e-mail
    address in the profile both return that response with an identity set;
    every response that either returns carries an identity; and without an
    address both throw the missing-address error. *)
Theorem handler_refresh_populate_identity :
  (∀ req t input privateInfo,
     executeFrameHandlerStrategy req = inr (input, privateInfo) →
     handler req t =
     match populateIdentity input t with
     | (Returned populated, t') =>
         (Returned {| response := populated;
                      result_refreshToken := refreshToken privateInfo |}, t')
     | (Thrown error, t') => (Thrown error, t')
     end) ∧
  (∀ req t accessToken params profile,
     executeRefreshTokenStrategy (req_refreshToken req) (req_scope req)
       = inr (accessToken, params) →
     executeFetchUserProfileStrategy accessToken (id_token params)
       = inr profile →
     refresh req t
       = populateIdentity (refreshed accessToken params profile) t) ∧
  (∀ req t input privateInfo e,
     executeFrameHandlerStrategy req = inr (input, privateInfo) →
     email (profile input) = Some e → e ≠ "" →
     ∃ i t',
       handler req t
         = (Returned {| response := withIdentity input i;
                        result_refreshToken := refreshToken privateInfo |},
            t') ∧
       resolvedId (fst (populateIdentity input t)) = Some i) ∧
  (∀ req t accessToken params profile e,
     executeRefreshTokenStrategy (req_refreshToken req) (req_scope req)
       = inr (accessToken, params) →
     executeFetchUserProfileStrategy accessToken (id_token params)
       = inr profile →
     email profile = Some e → e ≠ "" →
     ∃ i t',
       refresh req t
         = (Returned (withIdentity (refreshed accessToken params profile) i),
            t') ∧
       resolvedId
         (fst (populateIdentity (refreshed accessToken params profile) t))
         = Some i) ∧
  (∀ req t result t',
     handler req t = (Returned result, t') →
     ∃ input privateInfo,
       executeFrameHandlerStrategy req = inr (input, privateInfo) ∧
       populateIdentity input t = (Returned (response result), t') ∧
       result_refreshToken result = refreshToken privateInfo ∧
       is_Some (backstageIdentity (response result))) ∧
  (∀ req t out t',
     refresh req t = (Returned out, t') →
     ∃ accessToken params profile,
       executeRefreshTokenStrategy (req_refreshToken req) (req_scope req)
         = inr (accessToken, params) ∧
       executeFetchUserProfileStrategy accessToken (id_token params)
         = inr profile ∧
       populateIdentity (refreshed accessToken params profile) t
         = (Returned out, t') ∧
       is_Some (backstageIdentity out)) ∧
  (∀ req t input privateInfo,
     executeFrameHandlerStrategy req = inr (input, privateInfo) →
     email (profile input) = None ∨ email (profile input) = Some "" →
     handler req t = (Thrown noEmailError, t)) ∧
  (∀ req t accessToken params profile,
     executeRefreshTokenStrategy (req_refreshToken req) (req_scope req)
       = inr (accessToken, params) →
     executeFetchUserProfileStrategy accessToken (id_token params)
       = inr profile →
     email profile = None ∨ email profile = Some "" →
     refresh req t = (Thrown noEmailError, t)).
Proof.
  repeat apply conj.
  - intros req t input privateInfo Hframe. by rewrite handler_run, Hframe.
  - intros req t accessToken params profile Hrefresh Hfetch.
    by rewrite refresh_run, Hrefresh, Hfetch.
  - intros req t input privateInfo e Hframe He Hne.
    assert (Js.truthy (email (profile input)) = Some e) as Ht
      by by apply truthy_Some.
    rewrite handler_run, Hframe, populateIdentity_run, Ht.
    destruct (findUser (emailQuery e)); by eexists _, _.
  - intros req t accessToken params profile e Hrefresh Hfetch He Hne.
    assert (Js.truthy (email profile) = Some e) as Ht by by apply truthy_Some.
    rewrite refresh_run, Hrefresh, Hfetch, populateIdentity_run. simpl.
    rewrite Ht. destruct (findUser (emailQuery e)); by eexists _, _.
  - intros req t result t'. rewrite handler_run.
    destruct (executeFrameHandlerStrategy req) as [error|[input privateInfo]];
      [done|].
    destruct (populateIdentity input t) as [[populated|error] t1] eqn:Hrun;
      [|done].
    intros [= <- <-]. exists input, privateInfo. split; [done|].
    split; [done|]. split; [done|]. simpl.
    apply populateIdentity_returned in Hrun as [i ->]. by eexists.
  - intros req t out t'. rewrite refresh_run.
    destruct (executeRefreshTokenStrategy _ _) as [error|[accessToken params]];
      [done|].
    destruct (executeFetchUserProfileStrategy _ _) as [error|profile] eqn:Hf;
      [done|].
    intros Hrun. exists accessToken, params, profile. split; [done|].
    split; [done|]. split; [done|].
    apply populateIdentity_returned in Hrun as [i ->]. by eexists.
  - intros req t input privateInfo Hframe Hno. apply truthy_None in Hno.
    by rewrite handler_run, Hframe, populateIdentity_missing.
  - intros req t accessToken params profile Hrefresh Hfetch Hno.
    apply truthy_None in Hno.
    by rewrite refresh_run, Hrefresh, Hfetch, populateIdentity_missing.
Qed.

End Provider.

(** *** The scenarios of the specification *)

Import Scenarios.

(** C1 at [carol@co.com], which the directory does not hold. *)
Lemma populateIdentity_identity_present_carol :
  ∃ out t' i,
    populateIdentity (directory catalog) (responseFor (Some "carol@co.com")) []
      = (Returned out, t') ∧
    backstageIdentity out = Some {| id := i |} ∧
    match directory catalog (emailQuery "carol@co.com") with
    | inr user =>
        i = name (metadata user) ∧ (name (metadata user) ≠ "" → i ≠ "")
    | inl _ =>
        i = Js.first (Js.split "@" "carol@co.com") ∧
        (Js.beginsWith "@" "carol@co.com" = false → i ≠ "")
    end.
Proof.
  apply (populateIdentity_identity_present (directory catalog)
           (responseFor (Some "carol@co.com")) [] "carol@co.com");
    [reflexivity | discriminate].
Defined.

(** C1 as the specification states it fails: the address [@example.com] is
    not empty, the directory does not hold it, and the id that
    [populateIdentity] returns is the empty string. *)
Lemma populateIdentity_empty_id :
  email (profile (responseFor (Some "@example.com"))) = Some "@example.com" ∧
  "@example.com" ≠ "" ∧
  directory catalog (emailQuery "@example.com") = inl notFound ∧
  resolvedId
    (fst (populateIdentity (directory catalog)
            (responseFor (Some "@example.com")) []))
    = Some "".
Proof.
  split; [reflexivity|]. split; [discriminate|].
  split; vm_compute; reflexivity.
Qed.

(** Scenario C: the empty address. *)
Lemma populateIdentity_no_email_scenario_C :
  populateIdentity (directory catalog) (responseFor (Some "")) []
    = (Thrown noEmailError, []) ∧
  Js.message noEmailError = "Google " +:+ "profile contained no email" ∧
  lookups (snd (populateIdentity (directory catalog) (responseFor (Some "")) []))
    = lookups [] ∧
  warnings (snd (populateIdentity (directory catalog) (responseFor (Some "")) []))
    = warnings [].
Proof.
  apply (populateIdentity_no_email (directory catalog) (responseFor (Some "")) []).
  right. reflexivity.
Defined.

(** Scenario B: [carol@co.com], not found: the id is [carol] and the
    warning is the only one. *)
Lemma populateIdentity_fallback_scenario_B :
  ∃ out t',
    populateIdentity (directory catalog) (responseFor (Some "carol@co.com")) []
      = (Returned out, t') ∧
    resolvedId (Returned out) = Some "carol" ∧
    warnings t' = [fallbackWarning notFound].
Proof.
  destruct (populateIdentity_fallback (directory catalog)
              (responseFor (Some "carol@co.com")) [] "carol@co.com" notFound)
    as (out & t' & Hrun & _ & Hlocal & Hwarn & _);
    [reflexivity | discriminate | reflexivity |].
  exists out, t'. split; [exact Hrun|]. split; [|exact Hwarn].
  apply (Hlocal "carol" "co.com"); reflexivity.
Defined.

(** Scenario A: [bob@co.com], which the directory maps to [u-bob]. *)
Lemma populateIdentity_directory_scenario_A :
  ∃ out t',
    populateIdentity (directory catalog) (responseFor (Some "bob@co.com")) []
      = (Returned out, t') ∧
    resolvedId (Returned out) = Some "u-bob" ∧
    warnings t' = warnings [] ∧
    lookups t' = lookups [] ++ [emailQuery "bob@co.com"].
Proof.
  apply (populateIdentity_directory (directory catalog)
           (responseFor (Some "bob@co.com")) [] "bob@co.com"
           {| metadata := {| name := "u-bob" |} |});
    [reflexivity | discriminate | reflexivity].
Defined.

(** C5 at an address that the directory does not hold. *)
Lemma populateIdentity_lookup_error_recovered_carol :
  ∃ out t',
    populateIdentity (directory catalog) (responseFor (Some "carol@co.com")) []
      = (Returned out, t').
Proof.
  apply (proj1 (populateIdentity_lookup_error_recovered (directory catalog)
                  (responseFor (Some "carol@co.com")) []) "carol@co.com");
    [reflexivity | discriminate].
Defined.

(** C7 at scenario A. *)
Lemma populateIdentity_frame_scenario_A :
  providerInfo (withIdentity (responseFor (Some "bob@co.com")) "u-bob")
    = providerInfo (responseFor (Some "bob@co.com")) ∧
  profile (withIdentity (responseFor (Some "bob@co.com")) "u-bob")
    = profile (responseFor (Some "bob@co.com")) ∧
  ∃ i,
    backstageIdentity (withIdentity (responseFor (Some "bob@co.com")) "u-bob")
      = Some i ∧
    withIdentity (responseFor (Some "bob@co.com")) "u-bob"
      = withIdentity (responseFor (Some "bob@co.com")) (id i).
Proof.
  apply (populateIdentity_frame (directory catalog)
           (responseFor (Some "bob@co.com")) []
           (withIdentity (responseFor (Some "bob@co.com")) "u-bob")
           [FindUser (emailQuery "bob@co.com")]).
  reflexivity.
Defined.

(** C9 at the address [carol], which has no [@]. *)
Lemma populateIdentity_fallback_without_at_carol :
  ∃ out t',
    populateIdentity (directory catalog) (responseFor (Some "carol")) []
      = (Returned out, t') ∧
    (Js.occurs "@" "carol" = false → resolvedId (Returned out) = Some "carol").
Proof.
  apply (populateIdentity_fallback_without_at (directory catalog)
           (responseFor (Some "carol")) [] "carol" notFound);
    [reflexivity | discriminate | reflexivity].
Defined.

(** C10 on the stand-in strategies: [bob@co.com] signs in and refreshes,
    and is resolved to [u-bob] both times; an empty address makes both
    operations throw. *)
Lemma handler_refresh_populate_identity_runs :
  handler (directory catalog) (option string) frameHandler
    (Some "bob@co.com") []
    = (Returned
         {| response := withIdentity (responseFor (Some "bob@co.com")) "u-bob";
            result_refreshToken := "refresh-1" |},
       [FindUser (emailQuery "bob@co.com")]) ∧
  refresh (directory catalog) refreshToken_ fetchProfile
    {| req_refreshToken := "bob@co.com"; req_scope := "openid" |} []
    = (Returned
         (withIdentity
            (refreshed "bob@co.com"
               {| id_token := Some "id-2"; expires_in := Some 3600%Z;
                  params_scope := "openid" |}
               {| email := Some "bob@co.com"; displayName := None;
                  picture := None |})
            "u-bob"),
       [FindUser (emailQuery "bob@co.com")]) ∧
  handler (directory catalog) (option string) frameHandler (Some "") []
    = (Thrown noEmailError, []) ∧
  refresh (directory catalog) refreshToken_ fetchProfile
    {| req_refreshToken := ""; req_scope := "openid" |} []
    = (Thrown noEmailError, []).
Proof.
  pose proof (handler_refresh_populate_identity (directory catalog)
                (option string) frameHandler refreshToken_ fetchProfile)
    as (Hhandler & Hrefresh & _ & _ & _ & _ & Hnone & Hnone').
  split; [|split; [|split]].
  - rewrite (Hhandler (Some "bob@co.com") [] (responseFor (Some "bob@co.com"))
               {| refreshToken := "refresh-1" |} eq_refl).
    reflexivity.
  - rewrite (Hrefresh {| req_refreshToken := "bob@co.com";
                         req_scope := "openid" |} [] "bob@co.com"
               {| id_token := Some "id-2"; expires_in := Some 3600%Z;
                  params_scope := "openid" |}
               {| email := Some "bob@co.com"; displayName := None;
                  picture := None |} eq_refl eq_refl).
    reflexivity.
  - apply (Hnone (Some "") [] (responseFor (Some ""))
             {| refreshToken := "refresh-1" |}); [reflexivity|].
    right. reflexivity.
  - apply (Hnone' {| req_refreshToken := ""; req_scope := "openid" |} [] ""
             {| id_token := Some "id-2"; expires_in := Some 3600%Z;
                params_scope := "openid" |}
             {| email := Some ""; displayName := None; picture := None |});
      [reflexivity | reflexivity |].
    right. reflexivity.
Defined.

End GoogleSpec.

(** ** Provider set-up of the scaffolder plugin *)

Module ScaffolderSpec.

Import Scaffolder.

Section Plugin.

Context {Config : Type} `{ConfigApi Config}.
Context {GitApi Router : Type}.
Variable getGitApi : WebApi -> Js.Error + GitApi.
Variable createRouter : @RouterOptions Config GitApi -> Js.Error + Router.
Variable NODE_ENV : option string.

#[local] Abbreviation world := (@Scaffolder.world Config GitApi).
#[local] Abbreviation tryBlock := (tryBlock getGitApi).
#[local] Abbreviation catchBlock := (@catchBlock Config GitApi NODE_ENV).
#[local] Abbreviation providerBlock := (providerBlock getGitApi NODE_ENV).
#[local] Abbreviation createPlugin :=
  (createPlugin getGitApi createRouter NODE_ENV).

Ltac run := unfold mbind, eff_bind, bind, lift, throw, ret; simpl.

(** A [try] block that throws has registered nothing: the registrations are
    its last steps and cannot throw. *)
Lemma tryBlock_thrown p providerConfig (w : world) e w' :
  tryBlock p providerConfig w = (Thrown e, w') → w' = w.
Proof.
  destruct p; simpl.
  - unfold githubTry. run.
    destruct (getString providerConfig "visibility"); simpl;
      [by intros [= _ <-]|].
    destruct (getString providerConfig "token"); simpl;
      [by intros [= _ <-]|done].
  - unfold gitlabTry. run.
    destruct (getString providerConfig "token"); simpl;
      [by intros [= _ <-]|].
    destruct (getOptionalString providerConfig "baseUrl"); simpl;
      [by intros [= _ <-]|done].
  - unfold azureTry. run.
    destruct (getString providerConfig "baseUrl"); simpl;
      [by intros [= _ <-]|].
    destruct (getConfig providerConfig "api") as [|api]; simpl;
      [by intros [= _ <-]|].
    destruct (getString api "token"); simpl; [by intros [= _ <-]|].
    destruct (getGitApi _); simpl; [by intros [= _ <-]|done].
Qed.

Lemma catchBlock_development providerName e (w : world) :
  NODE_ENV = Some "development" →
  catchBlock providerName e w = (Returned tt, warned w (skipping providerName e)).
Proof. intros ->. done. Qed.

Lemma catchBlock_otherwise providerName e (w : world) :
  NODE_ENV ≠ Some "development" →
  catchBlock providerName e w = (Thrown (failedToInitialize providerName e), w).
Proof.
  intros Hmode. unfold Scaffolder.catchBlock, Js.strict_equal.
  by rewrite bool_decide_false.
Qed.

Lemma providerBlock_present p config providerConfig (w : world) :
  getOptionalConfig config (configKey p) = inr (Some providerConfig) →
  providerBlock p config w =
  try_catch (tryBlock p providerConfig) (catchBlock (providerName p)) w.
Proof. intros Hpresent. unfold Scaffolder.providerBlock. run. by rewrite Hpresent. Qed.

(** In development a provider block completes whatever its [try] block
    does, provided the configuration section itself can be read. *)
Lemma providerBlock_development p config (w : world) :
  NODE_ENV = Some "development" →
  (∃ section, getOptionalConfig config (configKey p) = inr section) →
  ∃ w', providerBlock p config w = (Returned tt, w').
Proof.
  intros Hmode [[providerConfig|] Hsection].
  - rewrite (providerBlock_present _ _ _ _ Hsection). unfold try_catch.
    destruct (tryBlock p providerConfig w) as [[[]|e] w1]; [by eauto|].
    rewrite catchBlock_development by done. by eauto.
  - unfold Scaffolder.providerBlock. run. rewrite Hsection. by eauto.
Qed.

(** Hence in development no provider makes plugin creation fail: the
    outcome of [createPlugin] is the outcome of [createRouter]. *)
Lemma createPlugin_development config (w : world) :
  NODE_ENV = Some "development" →
  (∀ p, ∃ section, getOptionalConfig config (configKey p) = inr section) →
  ∃ w',
    createPlugin config w =
    (match createRouter (routerOptions w') with
     | inl e => Thrown e
     | inr router => Returned router
     end, w').
Proof.
  intros Hmode Hsections. unfold Scaffolder.createPlugin.
  unfold mbind at 1 2 3 4 5 6 7. unfold eff_bind, bind.
  unfold newRegistries, templaters_register, preparers_register, modify.
  simpl.
  set (w0 := {| templaters := _ |}).
  unfold mbind, eff_bind, bind.
  destruct (providerBlock_development github config w0 Hmode (Hsections _))
    as [w1 ->].
  destruct (providerBlock_development gitlab config w1 Hmode (Hsections _))
    as [w2 ->].
  destruct (providerBlock_development azure config w2 Hmode (Hsections _))
    as [w3 ->].
  unfold registries, lift. simpl.
  exists w3. unfold routerOptions. by destruct (createRouter _).
Qed.

End Plugin.

(** *** Runs on concrete configurations *)

Import Scenarios.

(** C8 as the specification states it fails: outside development (here
    [NODE_ENV] is [production], or not set) a provider whose section is
    present and whose initialization throws makes [createPlugin] throw, and
    no warning is logged.  One run for each provider. *)
Lemma createPlugin_fails_outside_development :
  (getOptionalConfig githubWithoutToken (configKey github)
     = inr (Some (only "visibility" (JString "public"))) ∧
   tryBlock gitApiOf github (only "visibility" (JString "public")) emptyWorld
     = (Thrown (missing "token"), emptyWorld) ∧
   fst (createPlugin gitApiOf routerOf (Some "production") githubWithoutToken
          emptyWorld)
     = Thrown (Js.newError
         "Failed to initialize github scaffolding provider, Missing required config value at 'token'") ∧
   log (snd (createPlugin gitApiOf routerOf (Some "production")
               githubWithoutToken emptyWorld)) = []) ∧
  (getOptionalConfig gitlabWithoutToken (configKey gitlab)
     = inr (Some (only "baseUrl" (JString "https://gitlab.local"))) ∧
   fst (createPlugin gitApiOf routerOf None gitlabWithoutToken emptyWorld)
     = Thrown (Js.newError
         "Failed to initialize gitlab scaffolding provider, Missing required config value at 'token'") ∧
   log (snd (createPlugin gitApiOf routerOf None gitlabWithoutToken
               emptyWorld)) = []) ∧
  (getOptionalConfig azureWithoutApi (configKey azure)
     = inr (Some (only "baseUrl" (JString "https://dev.azure.local/org"))) ∧
   fst (createPlugin gitApiOf routerOf None azureWithoutApi emptyWorld)
     = Thrown (Js.newError
         "Failed to initialize azure scaffolding provider, Missing required config value at 'api'") ∧
   log (snd (createPlugin gitApiOf routerOf None azureWithoutApi
               emptyWorld)) = []).
Proof. repeat split; vm_compute; reflexivity. Qed.

(** The same GitHub section in development: the plugin is created, and the
    warning is the only trace of the provider. *)
Example createPlugin_skips_github_in_development :
  ∃ router,
    fst (createPlugin gitApiOf routerOf (Some "development") githubWithoutToken
           emptyWorld) = Returned router ∧
    opt_publishers router = ∅ ∧
    opt_preparers router !! "github" = None ∧
    log (snd (createPlugin gitApiOf routerOf (Some "development")
                githubWithoutToken emptyWorld))
      = ["Skipping github scaffolding provider, Missing required config value at 'token'"].
Proof. eexists. repeat split; vm_compute; reflexivity. Qed.

End ScaffolderSpec.

(** * Further properties of the code *)

(** ** The first piece of a split *)

Module SplitFacts.

Import Js.

(** The first piece is a prefix of the string, and is free of the
    separator. *)
Lemma first_split_prefix sep s :
  ∃ rest, s = first (split sep s) +:+ rest ∧
          occurs sep (first (split sep s)) = false.
Proof.
  induction s as [|c s IH]; simpl; [by exists ""|].
  destruct (decide (c = sep)) as [->|Hne]; simpl; [by eauto|].
  destruct IH as (rest & Heq & Hfree).
  destruct (split sep s) as [|piece pieces]; simpl in *.
  - exists s. by rewrite decide_False.
  - exists rest. rewrite decide_False by done. split; [|done].
    change (String c s = String c (piece +:+ rest)). by f_equal.
Qed.

End SplitFacts.

(** ** The Google auth provider: the rest of its behaviour *)

Module GoogleExtras.

Import Google JsFacts.

Section Provider.

Variable findUser : UserQuery -> Js.Error + UserEntity.
Variable Request : Type.
Variable executeFrameHandlerStrategy :
  Request -> Js.Error + (OAuthResponse * PrivateInfo).
Variable executeRefreshTokenStrategy :
  string -> string -> Js.Error + (string * RefreshParams).
Variable executeFetchUserProfileStrategy :
  string -> option string -> Js.Error + ProfileInfo.

#[local] Abbreviation populateIdentity := (populateIdentity findUser).
#[local] Abbreviation handler :=
  (handler findUser Request executeFrameHandlerStrategy).
#[local] Abbreviation refresh :=
  (refresh findUser executeRefreshTokenStrategy
     executeFetchUserProfileStrategy).
#[local] Abbreviation run := (GoogleSpec.populateIdentity_run findUser).

(** X1: an error of the frame handler strategy leaves [handler] as it is:
    the same error, no directory lookup, no warning. *)
Theorem handler_handshake_error req t error :
  executeFrameHandlerStrategy req = inl error →
  handler req t = (Thrown error, t).
Proof. intros Hfail. by rewrite GoogleSpec.handler_run, Hfail. Qed.

(** X2: an error of the refresh-token strategy, or of the profile fetch
    that follows it, leaves [refresh] as it is: the same error, no
    directory lookup, no warning. *)
Theorem refresh_handshake_error req t error :
  (executeRefreshTokenStrategy (req_refreshToken req) (req_scope req)
     = inl error →
   refresh req t = (Thrown error, t)) ∧
  (∀ accessToken params,
     executeRefreshTokenStrategy (req_refreshToken req) (req_scope req)
       = inr (accessToken, params) →
     executeFetchUserProfileStrategy accessToken (id_token params)
       = inl error →
     refresh req t = (Thrown error, t)).
Proof.
  split.
  - intros Hfail. by rewrite GoogleSpec.refresh_run, Hfail.
  - intros accessToken params Hrefresh Hfail.
    by rewrite GoogleSpec.refresh_run, Hrefresh, Hfail.
Qed.

(** X3: when the frame handler strategy succeeds with a profile that has an
    e-mail address, [handler] returns the refresh token of the strategy's
    private information together with the strategy's response, to which
    only the identity is added. *)
Theorem handler_success req t input privateInfo e :
  executeFrameHandlerStrategy req = inr (input, privateInfo) →
  email (profile input) = Some e → e ≠ "" →
  ∃ out t',
    handler req t
      = (Returned {| response := out;
                     result_refreshToken := refreshToken privateInfo |}, t') ∧
    populateIdentity input t = (Returned out, t') ∧
    providerInfo out = providerInfo input ∧
    profile out = profile input ∧
    is_Some (backstageIdentity out).
Proof.
  intros Hframe He Hne.
  assert (Js.truthy (email (profile input)) = Some e) as Ht
    by by apply truthy_Some.
  rewrite GoogleSpec.handler_run, Hframe, run, Ht.
  destruct (findUser (emailQuery e)); eexists _, _; by repeat split.
Qed.

(** X4: when both strategies of [refresh] succeed and the fetched profile
    has an e-mail address, the response carries the new access token, the
    id token, expiry and scope that the provider granted (the scope of
    [params], whatever scope was requested), and the fetched profile. *)
Theorem refresh_success req t accessToken params fetched e :
  executeRefreshTokenStrategy (req_refreshToken req) (req_scope req)
    = inr (accessToken, params) →
  executeFetchUserProfileStrategy accessToken (id_token params)
    = inr fetched →
  email fetched = Some e → e ≠ "" →
  ∃ out t',
    refresh req t = (Returned out, t') ∧
    Google.accessToken (providerInfo out) = accessToken ∧
    idToken (providerInfo out) = id_token params ∧
    expiresInSeconds (providerInfo out) = expires_in params ∧
    scope (providerInfo out) = params_scope params ∧
    profile out = fetched ∧
    is_Some (backstageIdentity out).
Proof.
  intros Hrefresh Hfetch He Hne.
  assert (Js.truthy (email fetched) = Some e) as Ht by by apply truthy_Some.
  rewrite GoogleSpec.refresh_run, Hrefresh, Hfetch, run. simpl. rewrite Ht.
  destruct (findUser (emailQuery e)); eexists _, _; by repeat split.
Qed.

(** X5: the fallback does not tell mail domains apart: two addresses with
    the same part before the [@], whose lookups both fail, resolve to the
    same id. *)
Theorem populateIdentity_fallback_collision
    response1 response2 t1 t2 l domain1 domain2 error1 error2 :
  email (profile response1) = Some (l +:+ String "@" domain1) →
  email (profile response2) = Some (l +:+ String "@" domain2) →
  Js.occurs "@" l = false →
  findUser (emailQuery (l +:+ String "@" domain1)) = inl error1 →
  findUser (emailQuery (l +:+ String "@" domain2)) = inl error2 →
  resolvedId (fst (populateIdentity response1 t1)) = Some l ∧
  resolvedId (fst (populateIdentity response2 t2)) = Some l.
Proof.
  intros He1 He2 Hfree Hfail1 Hfail2.
  assert (∀ d, l +:+ String "@" d ≠ "") as Hne by (intros d; by destruct l).
  split.
  - rewrite run, (proj2 (truthy_Some _ _) (conj He1 (Hne _))), Hfail1.
    simpl. by rewrite first_split_at_first.
  - rewrite run, (proj2 (truthy_Some _ _) (conj He2 (Hne _))), Hfail2.
    simpl. by rewrite first_split_at_first.
Qed.

(** X6: an id made by the fallback is a prefix of the e-mail address and
    contains no [@]. *)
Theorem populateIdentity_fallback_prefix response t e error :
  email (profile response) = Some e → e ≠ "" →
  findUser (emailQuery e) = inl error →
  ∃ i rest,
    resolvedId (fst (populateIdentity response t)) = Some i ∧
    e = i +:+ rest ∧
    Js.occurs "@" i = false.
Proof.
  intros He Hne Hfail.
  rewrite run, (proj2 (truthy_Some _ _) (conj He Hne)), Hfail. simpl.
  destruct (SplitFacts.first_split_prefix "@" e) as (rest & Heq & Hfree).
  by eauto.
Qed.

(** X7: one call of [populateIdentity] only adds to the record of what was
    done, and what it adds is one of three things: nothing, when it throws
    for a missing address; one directory lookup for the address, when the
    lookup succeeds; one lookup followed by one warning for its error, when
    the lookup fails.  So there is no retry, and no warning before or
    without a lookup. *)
Theorem populateIdentity_effects response t :
  ∃ new,
    snd (populateIdentity response t) = t ++ new ∧
    ((new = [] ∧ fst (populateIdentity response t) = Thrown noEmailError) ∨
     (∃ e user,
        email (profile response) = Some e ∧
        findUser (emailQuery e) = inr user ∧
        new = [FindUser (emailQuery e)]) ∨
     (∃ e error,
        email (profile response) = Some e ∧
        findUser (emailQuery e) = inl error ∧
        new = [FindUser (emailQuery e); Warn (fallbackWarning error)])).
Proof.
  rewrite run.
  destruct (Js.truthy (email (profile response))) as [e|] eqn:Ht.
  - apply truthy_Some in Ht as [He _].
    destruct (findUser (emailQuery e)) as [error|user] eqn:Hfind;
      eexists; (split; [done|]).
    + right. right. by exists e, error.
    + right. left. by exists e, user.
  - exists []. rewrite app_nil_r. split; [done|]. by left.
Qed.

(** X8: an identity that the input already carries is never kept: the
    outcome depends on the provider information and the profile only. *)
Theorem populateIdentity_ignores_stale_identity response1 response2 t :
  providerInfo response1 = providerInfo response2 →
  profile response1 = profile response2 →
  populateIdentity response1 t = populateIdentity response2 t.
Proof.
  intros Hinfo Hprofile. rewrite !run. unfold withIdentity.
  by rewrite Hinfo, Hprofile.
Qed.

(** X9: when the frame handler strategy yields what the verify callback of
    the constructor built, [handler] returns the refresh token that the
    provider gave to the callback, and a response whose token fields are
    those of the provider's [params] and whose profile is the normalized
    raw profile: the same response that [refresh] builds from [params]. *)
Theorem handler_after_verify
    RawProfile makeProfileInfo req t accessToken refreshToken params raw e :
  executeFrameHandlerStrategy req
    = inr (GoogleStrategy.verify RawProfile makeProfileInfo accessToken
             refreshToken params raw) →
  email (makeProfileInfo raw (id_token params)) = Some e → e ≠ "" →
  ∃ i t',
    handler req t
      = (Returned
           {| response :=
                withIdentity
                  (refreshed accessToken params
                     (makeProfileInfo raw (id_token params))) i;
              result_refreshToken := refreshToken |}, t').
Proof.
  intros Hframe He Hne. unfold GoogleStrategy.verify in Hframe.
  assert (Js.truthy (email (makeProfileInfo raw (id_token params))) = Some e)
    as Ht by by apply truthy_Some.
  rewrite GoogleSpec.handler_run, Hframe, run. simpl. rewrite Ht.
  destruct (findUser (emailQuery e)); by eexists _, _.
Qed.

(** X10: populating a response that [populateIdentity] returned returns it
    again: with the directory unchanged, a second pass changes nothing in
    the response. *)
Theorem populateIdentity_idempotent response t out t' t2 :
  populateIdentity response t = (Returned out, t') →
  fst (populateIdentity out t2) = Returned out.
Proof.
  rewrite run.
  destruct (Js.truthy (email (profile response))) as [e|] eqn:Ht; [|done].
  destruct (findUser (emailQuery e)) eqn:Hfind; intros [= <- _];
    by rewrite run; simpl; rewrite Ht, Hfind.
Qed.

End Provider.

(** *** Runs on concrete collaborators *)

Import Scenarios Fixtures.

Lemma handler_handshake_error_run :
  handler (directory catalog) (option string) failingFrameHandler
    (Some "bob@co.com") []
    = (Thrown handshakeError, []).
Proof.
  apply (handler_handshake_error (directory catalog) (option string)
           failingFrameHandler (Some "bob@co.com") [] handshakeError).
  reflexivity.
Defined.

Lemma refresh_handshake_error_run :
  refresh (directory catalog) failingRefreshToken fetchProfile
    {| req_refreshToken := "bob@co.com"; req_scope := "openid" |} []
    = (Thrown handshakeError, []) ∧
  refresh (directory catalog) refreshToken_ failingFetchProfile
    {| req_refreshToken := "bob@co.com"; req_scope := "openid" |} []
    = (Thrown handshakeError, []).
Proof.
  split.
  - apply (proj1 (refresh_handshake_error (directory catalog)
                    failingRefreshToken fetchProfile
                    {| req_refreshToken := "bob@co.com";
                       req_scope := "openid" |} [] handshakeError)).
    reflexivity.
  - apply (proj2 (refresh_handshake_error (directory catalog)
                    refreshToken_ failingFetchProfile
                    {| req_refreshToken := "bob@co.com";
                       req_scope := "openid" |} [] handshakeError)
             "bob@co.com"
             {| id_token := Some "id-2"; expires_in := Some 3600%Z;
                params_scope := "openid" |});
      reflexivity.
Defined.

Lemma handler_success_bob :
  ∃ out t',
    handler (directory catalog) (option string) frameHandler
      (Some "bob@co.com") []
      = (Returned {| response := out;
                     result_refreshToken := "refresh-1" |}, t') ∧
    populateIdentity (directory catalog) (responseFor (Some "bob@co.com")) []
      = (Returned out, t') ∧
    providerInfo out = tokens ∧
    profile out = profile (responseFor (Some "bob@co.com")) ∧
    is_Some (backstageIdentity out).
Proof.
  apply (handler_success (directory catalog) (option string) frameHandler
           (Some "bob@co.com") [] (responseFor (Some "bob@co.com"))
           {| refreshToken := "refresh-1" |} "bob@co.com");
    [reflexivity | reflexivity | discriminate].
Defined.

Lemma refresh_success_bob :
  ∃ out t',
    refresh (directory catalog) refreshToken_ fetchProfile
      {| req_refreshToken := "bob@co.com"; req_scope := "openid" |} []
      = (Returned out, t') ∧
    accessToken (providerInfo out) = "bob@co.com" ∧
    idToken (providerInfo out) = Some "id-2" ∧
    expiresInSeconds (providerInfo out) = Some 3600%Z ∧
    scope (providerInfo out) = "openid" ∧
    profile out
      = {| email := Some "bob@co.com"; displayName := None;
           picture := None |} ∧
    is_Some (backstageIdentity out).
Proof.
  apply (refresh_success (directory catalog) refreshToken_ fetchProfile
           {| req_refreshToken := "bob@co.com"; req_scope := "openid" |} []
           "bob@co.com"
           {| id_token := Some "id-2"; expires_in := Some 3600%Z;
              params_scope := "openid" |}
           {| email := Some "bob@co.com"; displayName := None;
              picture := None |} "bob@co.com");
    [reflexivity | reflexivity | reflexivity | discriminate].
Defined.

Lemma populateIdentity_fallback_collision_carol :
  resolvedId
    (fst (populateIdentity (directory catalog)
            (responseFor (Some "carol@co.com")) []))
    = Some "carol" ∧
  resolvedId
    (fst (populateIdentity (directory catalog)
            (responseFor (Some "carol@example.org")) []))
    = Some "carol".
Proof.
  apply (populateIdentity_fallback_collision (directory catalog)
           (responseFor (Some "carol@co.com"))
           (responseFor (Some "carol@example.org")) [] []
           "carol" "co.com" "example.org" notFound notFound);
    reflexivity.
Defined.

Lemma populateIdentity_fallback_prefix_carol :
  ∃ i rest,
    resolvedId
      (fst (populateIdentity (directory catalog)
              (responseFor (Some "carol@co.com")) []))
      = Some i ∧
    "carol@co.com" = i +:+ rest ∧
    Js.occurs "@" i = false.
Proof.
  apply (populateIdentity_fallback_prefix (directory catalog)
           (responseFor (Some "carol@co.com")) [] "carol@co.com" notFound);
    [reflexivity | discriminate | reflexivity].
Defined.

Lemma populateIdentity_ignores_stale_identity_bob :
  populateIdentity (directory catalog) (staleResponse (Some "bob@co.com")) []
  = populateIdentity (directory catalog) (responseFor (Some "bob@co.com")) [].
Proof.
  apply (populateIdentity_ignores_stale_identity (directory catalog)
           (staleResponse (Some "bob@co.com"))
           (responseFor (Some "bob@co.com")) []);
    reflexivity.
Defined.

Lemma handler_after_verify_bob :
  ∃ i t',
    handler (directory catalog) string verifiedFrameHandler "bob@co.com" []
      = (Returned
           {| response :=
                withIdentity
                  (refreshed "access-3" grantedParams
                     (profileOfAddress "bob@co.com" (id_token grantedParams)))
                  i;
              result_refreshToken := "refresh-3" |}, t').
Proof.
  apply (handler_after_verify (directory catalog) string verifiedFrameHandler
           string profileOfAddress "bob@co.com" [] "access-3" "refresh-3"
           grantedParams "bob@co.com" "bob@co.com");
    [reflexivity | reflexivity | discriminate].
Defined.

Lemma populateIdentity_idempotent_bob :
  fst (populateIdentity (directory catalog)
         (withIdentity (responseFor (Some "bob@co.com")) "u-bob") [])
  = Returned (withIdentity (responseFor (Some "bob@co.com")) "u-bob").
Proof.
  apply (populateIdentity_idempotent (directory catalog)
           (responseFor (Some "bob@co.com")) []
           (withIdentity (responseFor (Some "bob@co.com")) "u-bob")
           [FindUser (emailQuery "bob@co.com")] []).
  reflexivity.
Defined.

End GoogleExtras.

(** ** The scaffolder plugin: what the provider blocks do and leave alone *)

Module ScaffolderExtras.

Import Scaffolder Registrations.

Section Plugin.

Context {Config : Type} `{ConfigApi Config}.
Context {GitApi Router : Type}.
Variable getGitApi : WebApi -> Js.Error + GitApi.
Variable createRouter : @RouterOptions Config GitApi -> Js.Error + Router.
Variable NODE_ENV : option string.

#[local] Abbreviation world := (@Scaffolder.world Config GitApi).
#[local] Abbreviation tryBlock := (tryBlock getGitApi).
#[local] Abbreviation providerBlock := (providerBlock getGitApi NODE_ENV).
#[local] Abbreviation createPlugin :=
  (createPlugin getGitApi createRouter NODE_ENV).

Ltac run := unfold mbind, eff_bind, bind, lift, throw, ret; simpl.

(** The three [try] blocks, step by step. *)
Lemma githubTry_run githubConfig (w : world) :
  githubTry githubConfig w =
  match getString githubConfig "visibility" with
  | inl e => (Thrown e, w)
  | inr repoVisibility =>
      match getString githubConfig "token" with
      | inl e => (Thrown e, w)
      | inr githubToken =>
          (Returned tt, githubRegistered repoVisibility githubToken w)
      end
  end.
Proof.
  unfold githubTry. run.
  destruct (getString githubConfig "visibility"); simpl; [done|].
  by destruct (getString githubConfig "token").
Qed.

Lemma gitlabTry_run gitLabConfig (w : world) :
  gitlabTry gitLabConfig w =
  match getString gitLabConfig "token" with
  | inl e => (Thrown e, w)
  | inr gitLabToken =>
      match getOptionalString gitLabConfig "baseUrl" with
      | inl e => (Thrown e, w)
      | inr baseUrl => (Returned tt, gitlabRegistered baseUrl gitLabToken w)
      end
  end.
Proof.
  unfold gitlabTry. run.
  destruct (getString gitLabConfig "token"); simpl; [done|].
  by destruct (getOptionalString gitLabConfig "baseUrl").
Qed.

Lemma azureTry_run azureConfig (w : world) :
  azureTry getGitApi azureConfig w =
  match getString azureConfig "baseUrl" with
  | inl e => (Thrown e, w)
  | inr baseUrl =>
      match getConfig azureConfig "api" with
      | inl e => (Thrown e, w)
      | inr api =>
          match getString api "token" with
          | inl e => (Thrown e, w)
          | inr azureToken =>
              match getGitApi {| serverUrl := baseUrl;
                                 authHandler := {| pat := azureToken |} |} with
              | inl e => (Thrown e, w)
              | inr azureClient =>
                  (Returned tt, azureRegistered azureClient azureToken w)
              end
          end
      end
  end.
Proof.
  unfold azureTry. run.
  destruct (getString azureConfig "baseUrl"); simpl; [done|].
  destruct (getConfig azureConfig "api") as [|api]; simpl; [done|].
  destruct (getString api "token"); simpl; [done|].
  by destruct (getGitApi _).
Qed.

(** What a [try] block that returns has done. *)
Lemma tryBlock_returned p providerConfig (w : world) w' :
  tryBlock p providerConfig w = (Returned tt, w') →
  templaters w' = templaters w ∧
  log w' = log w ∧
  (∀ k, k ∉ preparerKeys p → preparers w' !! k = preparers w !! k) ∧
  (∀ k, k ∉ publisherKeys p → publishers w' !! k = publishers w !! k) ∧
  (∀ k, k ∈ preparerKeys p → is_Some (preparers w' !! k)) ∧
  (∀ k, k ∈ publisherKeys p → is_Some (publishers w' !! k)).
Proof.
  destruct p; simpl.
  - rewrite githubTry_run.
    destruct (getString providerConfig "visibility"); [done|].
    destruct (getString providerConfig "token"); [done|].
    intros [= <-]. simpl. repeat split; try done.
    + intros k [Hk _]%not_elem_of_cons. by rewrite lookup_insert_ne.
    + intros k [Hfile [Hgithub _]%not_elem_of_cons]%not_elem_of_cons.
      by rewrite !lookup_insert_ne.
    + intros k ->%list_elem_of_singleton. by rewrite lookup_insert_eq.
    + intros k [->|Hk%list_elem_of_singleton]%elem_of_cons; [|subst k].
      * by rewrite lookup_insert_ne, lookup_insert_eq.
      * by rewrite lookup_insert_eq.
  - rewrite gitlabTry_run.
    destruct (getString providerConfig "token"); [done|].
    destruct (getOptionalString providerConfig "baseUrl"); [done|].
    intros [= <-]. simpl. repeat split; try done.
    + intros k [Hgitlab [Hapi _]%not_elem_of_cons]%not_elem_of_cons.
      by rewrite !lookup_insert_ne.
    + by intros k ?%elem_of_nil.
    + intros k [->|Hk%list_elem_of_singleton]%elem_of_cons; [|subst k].
      * by rewrite lookup_insert_ne, lookup_insert_eq.
      * by rewrite lookup_insert_eq.
  - rewrite azureTry_run.
    destruct (getString providerConfig "baseUrl"); [done|].
    destruct (getConfig providerConfig "api") as [|api]; [done|].
    destruct (getString api "token"); [done|].
    destruct (getGitApi _); [done|].
    intros [= <-]. simpl. repeat split; try done.
    + intros k [Hk _]%not_elem_of_cons. by rewrite lookup_insert_ne.
    + by intros k ?%elem_of_nil.
    + intros k ->%list_elem_of_singleton. by rewrite lookup_insert_eq.
Qed.

(** The ways through a provider block. *)
Lemma providerBlock_cases p config (w : world) o w' :
  providerBlock p config w = (o, w') →
  (∃ e, getOptionalConfig config (configKey p) = inl e ∧
        o = Thrown e ∧ w' = w) ∨
  (getOptionalConfig config (configKey p) = inr None ∧
   o = Returned tt ∧ w' = w) ∨
  (∃ providerConfig,
     getOptionalConfig config (configKey p) = inr (Some providerConfig) ∧
     ((o = Returned tt ∧ tryBlock p providerConfig w = (Returned tt, w')) ∨
      (∃ e, tryBlock p providerConfig w = (Thrown e, w) ∧
            ((NODE_ENV = Some "development" ∧ o = Returned tt ∧
              w' = warned w (skipping (providerName p) e)) ∨
             (NODE_ENV ≠ Some "development" ∧
              o = Thrown (failedToInitialize (providerName p) e) ∧
              w' = w))))).
Proof.
  unfold Scaffolder.providerBlock. run.
  destruct (getOptionalConfig config (configKey p))
    as [e|[providerConfig|]] eqn:Hsection; simpl.
  - intros [= <- <-]. left. by eauto.
  - unfold try_catch.
    destruct (tryBlock p providerConfig w) as [[[]|e] w1] eqn:Htry.
    + intros [= <- <-]. right. right. exists providerConfig. by eauto.
    + pose proof (ScaffolderSpec.tryBlock_thrown _ _ _ _ _ _ Htry) as ->.
      destruct (decide (NODE_ENV = Some "development")) as [Hmode|Hmode].
      * rewrite ScaffolderSpec.catchBlock_development by done.
        intros [= <- <-]. right. right. exists providerConfig.
        split; [done|]. right. exists e. split; [done|]. by left.
      * rewrite ScaffolderSpec.catchBlock_otherwise by done.
        intros [= <- <-]. right. right. exists providerConfig.
        split; [done|]. right. exists e. split; [done|]. by right.
  - intros [= <- <-]. right. left. by eauto.
Qed.

(** [createPlugin] is the base registrations, the three provider blocks in
    the order github, gitlab, azure, and [createRouter]. *)
Lemma createPlugin_run config (w : world) :
  createPlugin config w =
  match providerBlock github config (baseWorld config w) with
  | (Thrown e, w1) => (Thrown e, w1)
  | (Returned _, w1) =>
      match providerBlock gitlab config w1 with
      | (Thrown e, w2) => (Thrown e, w2)
      | (Returned _, w2) =>
          match providerBlock azure config w2 with
          | (Thrown e, w3) => (Thrown e, w3)
          | (Returned _, w3) =>
              (match createRouter (routerOptions w3) with
               | inl e => Thrown e
               | inr router => Returned router
               end, w3)
          end
      end
  end.
Proof.
  unfold Scaffolder.createPlugin.
  unfold mbind at 1 2 3 4 5 6 7. unfold eff_bind, bind.
  unfold newRegistries, templaters_register, preparers_register, modify.
  simpl. fold (baseWorld config w).
  unfold mbind, eff_bind, bind.
  destruct (providerBlock github config _) as [[[]|e] w1]; [|done].
  destruct (providerBlock gitlab config _) as [[[]|e] w2]; [|done].
  destruct (providerBlock azure config _) as [[[]|e] w3]; [|done].
  unfold registries, lift, routerOptions. simpl.
  by destruct (createRouter _).
Qed.

(** A provider block leaves the templaters alone, and every key that is
    not one of its own. *)
Lemma providerBlock_frame p config (w : world) o w' :
  providerBlock p config w = (o, w') →
  templaters w' = templaters w ∧
  (∀ k, k ∉ preparerKeys p → preparers w' !! k = preparers w !! k) ∧
  (∀ k, k ∉ publisherKeys p → publishers w' !! k = publishers w !! k).
Proof.
  intros Hrun. apply providerBlock_cases in Hrun
    as [(e & _ & _ & ->)|[(_ & _ & ->)|(providerConfig & _ & Hpresent)]];
    [done..|].
  destruct Hpresent as [[_ Htry]|(e & _ & [(_ & _ & ->)|(_ & _ & ->)])];
    [|done..].
  apply tryBlock_returned in Htry as (? & _ & ? & ? & _). done.
Qed.

(** A provider block removes no registration. *)
Lemma providerBlock_keeps p config (w : world) o w' :
  providerBlock p config w = (o, w') →
  (∀ k, is_Some (preparers w !! k) → is_Some (preparers w' !! k)) ∧
  (∀ k, is_Some (publishers w !! k) → is_Some (publishers w' !! k)).
Proof.
  intros Hrun. apply providerBlock_cases in Hrun
    as [(e & _ & _ & ->)|[(_ & _ & ->)|(providerConfig & _ & Hpresent)]];
    [done..|].
  destruct Hpresent as [[_ Htry]|(e & _ & [(_ & _ & ->)|(_ & _ & ->)])];
    [|done..].
  apply tryBlock_returned in Htry
    as (_ & _ & Hpreparers & Hpublishers & Hnew & Hnew').
  split; intros k Hk.
  - destruct (decide (k ∈ preparerKeys p)); [by apply Hnew|].
    by rewrite Hpreparers.
  - destruct (decide (k ∈ publisherKeys p)); [by apply Hnew'|].
    by rewrite Hpublishers.
Qed.

(** A provider block logs at most one line, and none outside
    development. *)
Lemma providerBlock_log p config (w : world) o w' :
  providerBlock p config w = (o, w') →
  ∃ new, log w' = log w ++ new ∧ length new ≤ 1 ∧
         (NODE_ENV ≠ Some "development" → new = []).
Proof.
  intros Hrun. apply providerBlock_cases in Hrun
    as [(e & _ & _ & ->)|[(_ & _ & ->)|(providerConfig & _ & Hpresent)]].
  - exists []. rewrite app_nil_r. simpl. split; [done|]. split; [lia|done].
  - exists []. rewrite app_nil_r. simpl. split; [done|]. split; [lia|done].
  - destruct Hpresent as [[_ Htry]|(e & _ & [(Hmode & _ & ->)|(_ & _ & ->)])].
    + apply tryBlock_returned in Htry as (_ & -> & _).
      exists []. rewrite app_nil_r. simpl. split; [done|]. split; [lia|done].
    + eexists [_]. simpl. split; [done|]. split; [lia|done].
    + exists []. rewrite app_nil_r. simpl. split; [done|]. split; [lia|done].
Qed.

(** A provider whose section is present and whose block returned outside
    development has all its keys registered. *)
Lemma providerBlock_registered p config providerConfig (w : world) w' :
  NODE_ENV ≠ Some "development" →
  getOptionalConfig config (configKey p) = inr (Some providerConfig) →
  providerBlock p config w = (Returned tt, w') →
  (∀ k, k ∈ preparerKeys p → is_Some (preparers w' !! k)) ∧
  (∀ k, k ∈ publisherKeys p → is_Some (publishers w' !! k)).
Proof.
  intros Hmode Hsection Hrun. apply providerBlock_cases in Hrun
    as [(e & _ & [=] & _)|[(Habsent & _)|(providerConfig' & _ & Hpresent)]].
  - by rewrite Hsection in Habsent.
  - destruct Hpresent as [[_ Htry]|(e & _ & [(Hdev & _)|(_ & [=] & _)])];
      [|done].
    by apply tryBlock_returned in Htry as (_ & _ & _ & _ & ? & ?).
Qed.

(** X11: a [try] block registers all of its keys or nothing: when it
    throws, the world is as before; when it returns, every key of the
    provider is bound, and neither the log nor the templaters changed. *)
Theorem tryBlock_all_or_nothing p providerConfig (w : world) o w' :
  tryBlock p providerConfig w = (o, w') →
  (∃ e, o = Thrown e ∧ w' = w) ∨
  (o = Returned tt ∧
   log w' = log w ∧
   templaters w' = templaters w ∧
   (∀ k, k ∈ preparerKeys p → is_Some (preparers w' !! k)) ∧
   (∀ k, k ∈ publisherKeys p → is_Some (publishers w' !! k))).
Proof.
  destruct o as [[]|e]; intros Htry.
  - right. by apply tryBlock_returned in Htry as (? & ? & _ & _ & ? & ?).
  - left. exists e. split; [done|].
    by apply ScaffolderSpec.tryBlock_thrown in Htry.
Qed.

(** X12: with a GitHub section that has [visibility] and [token], the
    GitHub block registers one GitHub publisher under both [file] and
    [github], and a GitHub preparer under [github], built from these two
    values; it logs nothing, whatever [NODE_ENV] is. *)
Theorem providerBlock_github_registers
    config githubConfig (w : world) repoVisibility githubToken :
  getOptionalConfig config "scaffolder.github" = inr (Some githubConfig) →
  getString githubConfig "visibility" = inr repoVisibility →
  getString githubConfig "token" = inr githubToken →
  ∃ w',
    providerBlock github config w = (Returned tt, w') ∧
    publishers w' !! "file"
      = Some (GithubPublisher {| auth := githubToken |} githubToken
                repoVisibility) ∧
    publishers w' !! "github" = publishers w' !! "file" ∧
    preparers w' !! "github" = Some (GithubPreparer githubToken) ∧
    log w' = log w.
Proof.
  intros Hsection Hvisibility Htoken.
  exists (githubRegistered repoVisibility githubToken w).
  rewrite (ScaffolderSpec.providerBlock_present _ _ github _ _ _ Hsection).
  unfold try_catch. simpl. rewrite githubTry_run, Hvisibility, Htoken.
  split; [done|]. simpl.
  rewrite lookup_insert_ne by done. by rewrite !lookup_insert_eq.
Qed.

(** X13: with a GitLab section that has a [token], the GitLab block
    registers one GitLab publisher under both [gitlab] and [gitlab/api];
    its host is the optional [baseUrl], which may be absent.  No preparer
    is added and nothing is logged. *)
Theorem providerBlock_gitlab_registers
    config gitLabConfig (w : world) gitLabToken baseUrl :
  getOptionalConfig config "scaffolder.gitlab.api"
    = inr (Some gitLabConfig) →
  getString gitLabConfig "token" = inr gitLabToken →
  getOptionalString gitLabConfig "baseUrl" = inr baseUrl →
  ∃ w',
    providerBlock gitlab config w = (Returned tt, w') ∧
    publishers w' !! "gitlab"
      = Some (GitlabPublisher {| host := baseUrl; token := gitLabToken |}
                gitLabToken) ∧
    publishers w' !! "gitlab/api" = publishers w' !! "gitlab" ∧
    preparers w' = preparers w ∧
    log w' = log w.
Proof.
  intros Hsection Htoken Hbase.
  exists (gitlabRegistered baseUrl gitLabToken w).
  rewrite (ScaffolderSpec.providerBlock_present _ _ gitlab _ _ _ Hsection).
  unfold try_catch. simpl. rewrite gitlabTry_run, Htoken, Hbase.
  split; [done|]. simpl.
  rewrite lookup_insert_ne by done. by rewrite !lookup_insert_eq.
Qed.

(** X14: with an Azure section that has [baseUrl] and [api.token], and a
    git client obtained for that address with that token, the Azure block
    registers an Azure publisher under [azure/api], made of the client and
    the token.  No preparer is added and nothing is logged. *)
Theorem providerBlock_azure_registers
    config azureConfig api (w : world) baseUrl azureToken azureClient :
  getOptionalConfig config "scaffolder.azure" = inr (Some azureConfig) →
  getString azureConfig "baseUrl" = inr baseUrl →
  getConfig azureConfig "api" = inr api →
  getString api "token" = inr azureToken →
  getGitApi {| serverUrl := baseUrl; authHandler := {| pat := azureToken |} |}
    = inr azureClient →
  ∃ w',
    providerBlock azure config w = (Returned tt, w') ∧
    publishers w' !! "azure/api"
      = Some (AzurePublisher azureClient azureToken) ∧
    preparers w' = preparers w ∧
    log w' = log w.
Proof.
  intros Hsection Hbase Hapi Htoken Hclient.
  exists (azureRegistered azureClient azureToken w).
  rewrite (ScaffolderSpec.providerBlock_present _ _ azure _ _ _ Hsection).
  unfold try_catch. simpl.
  rewrite azureTry_run, Hbase, Hapi, Htoken, Hclient.
  split; [done|]. simpl. by rewrite lookup_insert_eq.
Qed.

(** X15: with none of the three sections configured, [createPlugin] hands
    [createRouter] the two templaters, the four base preparers and no
    publisher, and logs nothing, whatever [NODE_ENV] is. *)
Theorem createPlugin_without_sections config (w : world) :
  (∀ p, getOptionalConfig config (configKey p) = inr None) →
  createPlugin config w =
  (match createRouter
           {| opt_preparers := basePreparers config;
              opt_templaters := baseTemplaters;
              opt_publishers := ∅;
              opt_dockerClient := newDocker |} with
   | inl e => Thrown e
   | inr router => Returned router
   end, baseWorld config w).
Proof.
  intros Habsent. rewrite createPlugin_run.
  assert (∀ p (w0 : world), providerBlock p config w0 = (Returned tt, w0))
    as Hskip.
  { intros p w0. unfold Scaffolder.providerBlock. run.
    by rewrite Habsent. }
  by rewrite !Hskip.
Qed.

(** X16: reading the section itself is outside the [try]: when
    [getOptionalConfig] throws, the block throws that error as it is and
    logs nothing, in development too; for the first block, GitHub, this is
    the outcome of [createPlugin]. *)
Theorem providerBlock_unreadable_section p config (w : world) e :
  getOptionalConfig config (configKey p) = inl e →
  providerBlock p config w = (Thrown e, w) ∧
  (p = github → createPlugin config w = (Thrown e, baseWorld config w)).
Proof.
  intros Hfail.
  assert (∀ w0 : world, providerBlock p config w0 = (Thrown e, w0)) as Hblock.
  { intros w0. unfold Scaffolder.providerBlock. run. by rewrite Hfail. }
  split; [done|]. intros ->. by rewrite createPlugin_run, Hblock.
Qed.

(** X17: a router that [createPlugin] returns was created from the final
    registries, in which the two templaters and the four base preparers
    are as registered at the start: no provider block replaces them. *)
Theorem createPlugin_base_registrations config (w : world) router w' :
  createPlugin config w = (Returned router, w') →
  createRouter (routerOptions w') = inr router ∧
  templaters w' = baseTemplaters ∧
  preparers w' !! "file" = Some FilePreparer ∧
  preparers w' !! "gitlab" = Some (GitlabPreparer config) ∧
  preparers w' !! "gitlab/api" = Some (GitlabPreparer config) ∧
  preparers w' !! "azure/api" = Some (AzurePreparer config).
Proof.
  rewrite createPlugin_run.
  destruct (providerBlock github config _) as [[[]|e1] w1] eqn:H1; [|done].
  destruct (providerBlock gitlab config _) as [[[]|e2] w2] eqn:H2; [|done].
  destruct (providerBlock azure config _) as [[[]|e3] w3] eqn:H3; [|done].
  destruct (createRouter (routerOptions w3)) as [e|r] eqn:Hrouter; [done|].
  intros [= <- <-]. split; [done|].
  apply providerBlock_frame in H1 as (Ht1 & Hp1 & _).
  apply providerBlock_frame in H2 as (Ht2 & Hp2 & _).
  apply providerBlock_frame in H3 as (Ht3 & Hp3 & _).
  split; [by rewrite Ht3, Ht2, Ht1|].
  assert (∀ k, k ≠ "github" → preparers w3 !! k = basePreparers config !! k)
    as Hbase.
  { intros k Hk. rewrite Hp3, Hp2, Hp1; [done|simpl..].
    - by intros ->%list_elem_of_singleton.
    - by intros ?%elem_of_nil.
    - by intros ?%elem_of_nil. }
  rewrite !Hbase by done. done.
Qed.

(** X18: [createPlugin] only appends to the log: at most three lines, one
    per provider block, and none at all outside development. *)
Theorem createPlugin_log config (w : world) :
  ∃ new,
    log (snd (createPlugin config w)) = log w ++ new ∧
    length new ≤ 3 ∧
    (NODE_ENV ≠ Some "development" → new = []).
Proof.
  rewrite createPlugin_run.
  destruct (providerBlock github config _) as [o1 w1] eqn:H1.
  destruct (providerBlock_log _ _ _ _ _ H1) as (n1 & Hl1 & Hn1 & Hm1).
  simpl in Hl1.
  destruct o1 as [[]|e1]; simpl.
  2: { exists n1. split; [done|]. split; [lia|done]. }
  destruct (providerBlock gitlab config _) as [o2 w2] eqn:H2.
  destruct (providerBlock_log _ _ _ _ _ H2) as (n2 & Hl2 & Hn2 & Hm2).
  destruct o2 as [[]|e2]; simpl.
  2: { exists (n1 ++ n2). rewrite Hl2, Hl1, app_assoc, length_app.
       split; [done|]. split; [lia|]. intros Hmode.
       by rewrite Hm1, Hm2. }
  destruct (providerBlock azure config _) as [o3 w3] eqn:H3.
  destruct (providerBlock_log _ _ _ _ _ H3) as (n3 & Hl3 & Hn3 & Hm3).
  exists (n1 ++ n2 ++ n3).
  assert (log w3 = log w ++ n1 ++ n2 ++ n3) as Hlog
    by (by rewrite Hl3, Hl2, Hl1, <- !app_assoc).
  split.
  - by destruct o3 as [[]|e3]; simpl.
  - rewrite !length_app. split; [lia|]. intros Hmode.
    by rewrite Hm1, Hm2, Hm3.
Qed.

(** X19: outside development a plugin that is created has every
    configured provider in place: for each section that is present, all
    keys of that provider are bound in the final registries. *)
Theorem createPlugin_configured_registered
    config (w : world) router w' p providerConfig :
  NODE_ENV ≠ Some "development" →
  createPlugin config w = (Returned router, w') →
  getOptionalConfig config (configKey p) = inr (Some providerConfig) →
  (∀ k, k ∈ preparerKeys p → is_Some (preparers w' !! k)) ∧
  (∀ k, k ∈ publisherKeys p → is_Some (publishers w' !! k)).
Proof.
  intros Hmode. rewrite createPlugin_run.
  destruct (providerBlock github config _) as [[[]|e1] w1] eqn:H1; [|done].
  destruct (providerBlock gitlab config _) as [[[]|e2] w2] eqn:H2; [|done].
  destruct (providerBlock azure config _) as [[[]|e3] w3] eqn:H3; [|done].
  destruct (createRouter (routerOptions w3)) as [e|r]; [done|].
  intros [= <- <-] Hsection.
  pose proof (providerBlock_keeps _ _ _ _ _ H2) as [Hk2 Hk2'].
  pose proof (providerBlock_keeps _ _ _ _ _ H3) as [Hk3 Hk3'].
  destruct p.
  - destruct (providerBlock_registered _ _ _ _ _ Hmode Hsection H1)
      as [Hpre Hpub].
    split; intros k Hk; [apply Hk3, Hk2, Hpre|apply Hk3', Hk2', Hpub]; done.
  - destruct (providerBlock_registered _ _ _ _ _ Hmode Hsection H2)
      as [Hpre Hpub].
    split; intros k Hk; [apply Hk3, Hpre|apply Hk3', Hpub]; done.
  - by apply (providerBlock_registered _ _ _ _ _ Hmode Hsection H3).
Qed.

(** X20: outside development the first failure ends the set-up: when the
    GitHub section is present and its [try] block throws [e],
    [createPlugin] throws "Failed to initialize github scaffolding
    provider, ..." for [e], whatever the other sections hold, with no
    provider registered and nothing logged. *)
Theorem createPlugin_github_failure config githubConfig (w : world) e :
  NODE_ENV ≠ Some "development" →
  getOptionalConfig config (configKey github) = inr (Some githubConfig) →
  (∀ w0 : world, tryBlock github githubConfig w0 = (Thrown e, w0)) →
  createPlugin config w
    = (Thrown (failedToInitialize "github" e), baseWorld config w).
Proof.
  intros Hmode Hsection Hthrows. rewrite createPlugin_run.
  rewrite (ScaffolderSpec.providerBlock_present _ _ github _ _ _ Hsection).
  unfold try_catch. rewrite Hthrows.
  by rewrite ScaffolderSpec.catchBlock_otherwise.
Qed.

(** X21: without a GitHub section nothing is registered under the keys of
    the GitHub block: no [file] publisher, no [github] publisher and no
    [github] preparer, whatever the GitLab and Azure blocks do. *)
Theorem createPlugin_without_github config (w : world) :
  getOptionalConfig config (configKey github) = inr None →
  publishers (snd (createPlugin config w)) !! "file" = None ∧
  publishers (snd (createPlugin config w)) !! "github" = None ∧
  preparers (snd (createPlugin config w)) !! "github" = None.
Proof.
  intros Habsent. rewrite createPlugin_run.
  assert (providerBlock github config (baseWorld config w)
          = (Returned tt, baseWorld config w)) as ->.
  { unfold Scaffolder.providerBlock. run. simpl in Habsent.
    by rewrite Habsent. }
  assert (∀ p (w0 w1 : world) o,
            p ≠ github →
            providerBlock p config w0 = (o, w1) →
            publishers w0 !! "file" = None ∧
            publishers w0 !! "github" = None ∧
            preparers w0 !! "github" = None →
            publishers w1 !! "file" = None ∧
            publishers w1 !! "github" = None ∧
            preparers w1 !! "github" = None) as Hstep.
  { intros p w0 w1 o Hp Hrun (Hfile & Hgithub & Hpre).
    apply providerBlock_frame in Hrun as (_ & Hpreparers & Hpublishers).
    rewrite !Hpublishers, Hpreparers; [done|destruct p; simpl..].
    all: try done.
    all: rewrite ?not_elem_of_cons; repeat split; try done.
    all: by intros ?%elem_of_nil. }
  assert (publishers (baseWorld config w) !! "file" = None ∧
          publishers (baseWorld config w) !! "github" = None ∧
          preparers (baseWorld config w) !! "github" = None) as Hbase
    by done.
  destruct (providerBlock gitlab config _) as [o2 w2] eqn:H2.
  pose proof (Hstep gitlab _ _ _ ltac:(done) H2 Hbase) as Hafter2.
  destruct o2 as [[]|e2]; [|done].
  destruct (providerBlock azure config _) as [o3 w3] eqn:H3.
  pose proof (Hstep azure _ _ _ ltac:(done) H3 Hafter2) as Hafter3.
  by destruct o3 as [[]|e3].
Qed.

(** X22: in development, when all three sections are present and each
    [try] block throws, the router is created without any publisher, and
    the three warnings are logged in the order github, gitlab, azure. *)
Theorem createPlugin_development_skips_all config (w : world) sections errors :
  NODE_ENV = Some "development" →
  (∀ p, getOptionalConfig config (configKey p) = inr (Some (sections p))) →
  (∀ p (w0 : world), tryBlock p (sections p) w0 = (Thrown (errors p), w0)) →
  ∃ w',
    createPlugin config w =
    (match createRouter (routerOptions w') with
     | inl e => Thrown e
     | inr router => Returned router
     end, w') ∧
    publishers w' = ∅ ∧
    preparers w' = basePreparers config ∧
    log w' = log w ++ [skipping "github" (errors github);
                       skipping "gitlab" (errors gitlab);
                       skipping "azure" (errors azure)].
Proof.
  intros Hmode Hsections Hthrow. rewrite createPlugin_run.
  assert (∀ p (w0 : world),
            providerBlock p config w0
            = (Returned tt, warned w0 (skipping (providerName p) (errors p))))
    as Hblock.
  { intros p w0.
    rewrite (ScaffolderSpec.providerBlock_present _ _ p _ _ _ (Hsections p)).
    unfold try_catch. rewrite Hthrow.
    by apply ScaffolderSpec.catchBlock_development. }
  rewrite !Hblock. eexists. split; [done|]. simpl.
  split; [done|]. split; [done|]. by rewrite <- !app_assoc.
Qed.

End Plugin.

(** *** Runs on concrete configurations *)

Import Scenarios Fixtures.

#[local] Abbreviation jsonWorld := (@Scaffolder.world json string).

Lemma tryBlock_all_or_nothing_github :
  let w' : jsonWorld := githubRegistered "public" "gh-token" emptyWorld in
  (∃ e, Returned tt = Thrown e ∧ w' = emptyWorld) ∨
  (Returned tt = Returned tt ∧
   log w' = log emptyWorld ∧
   templaters w' = templaters emptyWorld ∧
   (∀ k, k ∈ preparerKeys github → is_Some (preparers w' !! k)) ∧
   (∀ k, k ∈ publisherKeys github → is_Some (publishers w' !! k))).
Proof.
  apply (tryBlock_all_or_nothing gitApiOf github githubSection emptyWorld
           (Returned tt) (githubRegistered "public" "gh-token" emptyWorld)).
  reflexivity.
Defined.

Lemma providerBlock_github_registers_run :
  ∃ w' : jsonWorld,
    providerBlock gitApiOf (Some "production") github githubOnly emptyWorld
      = (Returned tt, w') ∧
    publishers w' !! "file"
      = Some (GithubPublisher {| auth := "gh-token" |} "gh-token" "public") ∧
    publishers w' !! "github" = publishers w' !! "file" ∧
    preparers w' !! "github" = Some (GithubPreparer "gh-token") ∧
    log w' = log emptyWorld.
Proof.
  apply (providerBlock_github_registers gitApiOf (Some "production")
           githubOnly githubSection emptyWorld "public" "gh-token");
    reflexivity.
Defined.

Lemma providerBlock_gitlab_registers_run :
  ∃ w' : jsonWorld,
    providerBlock gitApiOf None gitlab gitlabOnly emptyWorld
      = (Returned tt, w') ∧
    publishers w' !! "gitlab"
      = Some (GitlabPublisher
                {| host := Some "https://gitlab.local"; token := "gl-token" |}
                "gl-token") ∧
    publishers w' !! "gitlab/api" = publishers w' !! "gitlab" ∧
    preparers w' = preparers emptyWorld ∧
    log w' = log emptyWorld.
Proof.
  apply (providerBlock_gitlab_registers gitApiOf None gitlabOnly gitlabSection
           emptyWorld "gl-token" (Some "https://gitlab.local"));
    reflexivity.
Defined.

Lemma providerBlock_azure_registers_run :
  ∃ w' : jsonWorld,
    providerBlock gitApiOf None azure azureOnly emptyWorld
      = (Returned tt, w') ∧
    publishers w' !! "azure/api"
      = Some (AzurePublisher "https://dev.azure.local/org" "az-token") ∧
    preparers w' = preparers emptyWorld ∧
    log w' = log emptyWorld.
Proof.
  apply (providerBlock_azure_registers gitApiOf None azureOnly azureSection
           (only "token" (JString "az-token")) emptyWorld
           "https://dev.azure.local/org" "az-token"
           "https://dev.azure.local/org");
    reflexivity.
Defined.

Lemma createPlugin_without_sections_run :
  createPlugin gitApiOf routerOf (Some "production") noSections emptyWorld =
  (match routerOf
           {| opt_preparers := basePreparers noSections;
              opt_templaters := baseTemplaters;
              opt_publishers := ∅;
              opt_dockerClient := newDocker |} with
   | inl e => Thrown e
   | inr router => Returned router
   end, baseWorld noSections emptyWorld).
Proof.
  apply (createPlugin_without_sections gitApiOf routerOf (Some "production")
           noSections emptyWorld).
  intros []; reflexivity.
Defined.

Lemma providerBlock_unreadable_section_run :
  providerBlock gitApiOf (Some "development") github githubNotASection
    emptyWorld
    = (Thrown (invalid "scaffolder.github"), emptyWorld) ∧
  (github = github →
   createPlugin gitApiOf routerOf (Some "development") githubNotASection
     emptyWorld
     = (Thrown (invalid "scaffolder.github"),
        baseWorld githubNotASection emptyWorld)).
Proof.
  apply (providerBlock_unreadable_section gitApiOf routerOf
           (Some "development") github githubNotASection emptyWorld
           (invalid "scaffolder.github")).
  reflexivity.
Defined.

(** The world in which the run on [gitlabOnly] ends. *)
Lemma createPlugin_base_registrations_gitlab :
  let w' : jsonWorld :=
    gitlabRegistered (Some "https://gitlab.local") "gl-token"
      (baseWorld gitlabOnly emptyWorld) in
  routerOf (routerOptions w') = inr (routerOptions w') ∧
  templaters w' = baseTemplaters ∧
  preparers w' !! "file" = Some FilePreparer ∧
  preparers w' !! "gitlab" = Some (GitlabPreparer gitlabOnly) ∧
  preparers w' !! "gitlab/api" = Some (GitlabPreparer gitlabOnly) ∧
  preparers w' !! "azure/api" = Some (AzurePreparer gitlabOnly).
Proof.
  apply (createPlugin_base_registrations gitApiOf routerOf None gitlabOnly
           emptyWorld).
  vm_compute. reflexivity.
Defined.

Lemma createPlugin_configured_registered_gitlab :
  let w' : jsonWorld :=
    gitlabRegistered (Some "https://gitlab.local") "gl-token"
      (baseWorld gitlabOnly emptyWorld) in
  (∀ k, k ∈ preparerKeys gitlab → is_Some (preparers w' !! k)) ∧
  (∀ k, k ∈ publisherKeys gitlab → is_Some (publishers w' !! k)).
Proof.
  apply (createPlugin_configured_registered gitApiOf routerOf None gitlabOnly
           emptyWorld
           (routerOptions
              (gitlabRegistered (Some "https://gitlab.local") "gl-token"
                 (baseWorld gitlabOnly emptyWorld)))
           (gitlabRegistered (Some "https://gitlab.local") "gl-token"
              (baseWorld gitlabOnly emptyWorld))
           gitlab gitlabSection);
    [discriminate | vm_compute; reflexivity | reflexivity].
Defined.

Lemma createPlugin_github_failure_run :
  createPlugin gitApiOf routerOf None allIncomplete emptyWorld
    = (Thrown (failedToInitialize "github" (missing "token")),
       baseWorld allIncomplete emptyWorld).
Proof.
  apply (createPlugin_github_failure gitApiOf routerOf None allIncomplete
           (incompleteSection github) emptyWorld (missing "token"));
    [discriminate | reflexivity | intros w0; reflexivity].
Defined.

Lemma createPlugin_without_github_run :
  publishers
    (snd (createPlugin gitApiOf routerOf None gitlabOnly emptyWorld))
    !! "file" = None ∧
  publishers
    (snd (createPlugin gitApiOf routerOf None gitlabOnly emptyWorld))
    !! "github" = None ∧
  preparers
    (snd (createPlugin gitApiOf routerOf None gitlabOnly emptyWorld))
    !! "github" = None.
Proof.
  apply (createPlugin_without_github gitApiOf routerOf None gitlabOnly
           emptyWorld).
  reflexivity.
Defined.

Lemma createPlugin_development_skips_all_run :
  ∃ w' : jsonWorld,
    createPlugin gitApiOf routerOf (Some "development") allIncomplete
      emptyWorld =
    (match routerOf (routerOptions w') with
     | inl e => Thrown e
     | inr router => Returned router
     end, w') ∧
    publishers w' = ∅ ∧
    preparers w' = basePreparers allIncomplete ∧
    log w' = log emptyWorld ++
             [skipping "github" (incompleteError github);
              skipping "gitlab" (incompleteError gitlab);
              skipping "azure" (incompleteError azure)].
Proof.
  apply (createPlugin_development_skips_all gitApiOf routerOf
           (Some "development") allIncomplete emptyWorld incompleteSection
           incompleteError);
    [reflexivity | intros []; reflexivity | intros [] w0; reflexivity].
Defined.

End ScaffolderExtras.

(** ** Identity resolution against a directory that changes *)

Module LiveDirectorySpec.

Import Google.

Section Provider.

Variable Directory : Type.
Variable findUser :
  Directory -> UserQuery -> (Js.Error + UserEntity) * Directory.

#[local] Abbreviation world := (LiveDirectory.world Directory).
#[local] Abbreviation populateIdentity :=
  (LiveDirectory.populateIdentity Directory findUser).
#[local] Abbreviation answer := (LiveDirectory.answer Directory findUser).

(** The ways through [populateIdentity], by what the directory answers in
    the state it is in. *)
Lemma populateIdentity_outcome response (w : world) :
  fst (populateIdentity response w) =
  match Js.truthy (email (profile response)) with
  | None => Thrown noEmailError
  | Some e =>
      match answer w (emailQuery e) with
      | inr user => Returned (withIdentity response (name (metadata user)))
      | inl _ =>
          Returned (withIdentity response (Js.first (Js.split "@" e)))
      end
  end.
Proof.
  unfold LiveDirectory.populateIdentity, LiveDirectory.answer.
  destruct (Js.truthy (email (profile response))) as [e|]; [|done].
  unfold try_catch, LiveDirectory.identityClient_findUser,
    LiveDirectory.logger_warn, mbind, eff_bind, bind, modify, lift; simpl.
  by destruct (findUser (LiveDirectory.directory Directory w) (emailQuery e))
    as [[error|user] next].
Qed.

(** C6: two calls of [populateIdentity] with the same response, made in
    worlds whose directories answer every query alike, have the same
    outcome, and so the same resolved id: whatever else differs between
    the two worlds (the events so far, the inner state of the directory)
    does not count.  In particular this holds for two calls in a row when
    the directory after the first call answers as before it. *)
Theorem populateIdentity_deterministic response (w1 w2 : world) :
  (∀ q, answer w1 q = answer w2 q) →
  fst (populateIdentity response w1) = fst (populateIdentity response w2) ∧
  resolvedId (fst (populateIdentity response w1))
  = resolvedId (fst (populateIdentity response w2)).
Proof.
  intros Hsame.
  assert (fst (populateIdentity response w1)
          = fst (populateIdentity response w2)) as Heq.
  { rewrite !populateIdentity_outcome.
    destruct (Js.truthy (email (profile response))) as [e|]; [|done].
    by rewrite Hsame. }
  split; [done|]. by rewrite Heq.
Qed.

(** When a lookup leaves the directory as it is and the answers do not
    depend on a state, this is the provider of the first part. *)
Lemma populateIdentity_stateless (lookup : UserQuery -> Js.Error + UserEntity)
    response (w : world) :
  (∀ d q, findUser d q = (lookup q, d)) →
  populateIdentity response w =
  (fst (Google.populateIdentity lookup response (LiveDirectory.events _ w)),
   {| LiveDirectory.directory := LiveDirectory.directory _ w;
      LiveDirectory.events :=
        snd (Google.populateIdentity lookup response
               (LiveDirectory.events _ w)) |}).
Proof.
  intros Hstateless. rewrite GoogleSpec.populateIdentity_run.
  unfold LiveDirectory.populateIdentity.
  destruct (Js.truthy (email (profile response))) as [e|]; [|by destruct w].
  unfold try_catch, LiveDirectory.identityClient_findUser,
    LiveDirectory.logger_warn, mbind, eff_bind, bind, modify, lift; simpl.
  rewrite Hstateless.
  destruct (lookup (emailQuery e)) as [error|user]; simpl; [|done].
  by rewrite <- app_assoc.
Qed.

End Provider.

(** *** Runs *)

Import Scenarios LiveFixtures.

(** C6 at two calls in a row against the table directory: the first call
    leaves the table as it is, and both resolve [bob@co.com] to [u-bob]. *)
Lemma populateIdentity_deterministic_in_a_row :
  let start :=
    {| LiveDirectory.directory := catalog; LiveDirectory.events := [] |} in
  let once :=
    LiveDirectory.populateIdentity _ tableDirectory
      (responseFor (Some "bob@co.com")) start in
  let again :=
    LiveDirectory.populateIdentity _ tableDirectory
      (responseFor (Some "bob@co.com")) (snd once) in
  fst once = fst again ∧
  resolvedId (fst once) = resolvedId (fst again) ∧
  resolvedId (fst once) = Some "u-bob".
Proof.
  cbv zeta.
  destruct (populateIdentity_deterministic _ tableDirectory
              (responseFor (Some "bob@co.com"))
              {| LiveDirectory.directory := catalog;
                 LiveDirectory.events := [] |}
              (snd (LiveDirectory.populateIdentity _ tableDirectory
                      (responseFor (Some "bob@co.com"))
                      {| LiveDirectory.directory := catalog;
                         LiveDirectory.events := [] |})))
    as [Hout Hid].
  - intros q. reflexivity.
  - split; [exact Hout|]. split; [exact Hid|]. reflexivity.
Defined.

(** Without the condition the ids differ: against a directory that times
    out on the first lookup, the same response is resolved to the fallback
    id first and to the directory's id next. *)
Example populateIdentity_directory_changed :
  let start :=
    {| LiveDirectory.directory := false; LiveDirectory.events := [] |} in
  let once :=
    LiveDirectory.populateIdentity _ coldDirectory
      (responseFor (Some "bob@co.com")) start in
  let again :=
    LiveDirectory.populateIdentity _ coldDirectory
      (responseFor (Some "bob@co.com")) (snd once) in
  resolvedId (fst once) = Some "bob" ∧
  resolvedId (fst again) = Some "u-bob" ∧
  warnings (LiveDirectory.events _ (snd again))
    = [fallbackWarning timeout].
Proof. repeat split; vm_compute; reflexivity. Qed.

End LiveDirectorySpec.

(** ** A provider whose initialization fails *)

Module ScaffolderFailure.

Import Scaffolder Registrations.

Section Plugin.

Context {Config : Type} `{ConfigApi Config}.
Context {GitApi Router : Type}.
Variable getGitApi : WebApi -> Js.Error + GitApi.
Variable createRouter : @RouterOptions Config GitApi -> Js.Error + Router.
Variable NODE_ENV : option string.

#[local] Abbreviation world := (@Scaffolder.world Config GitApi).
#[local] Abbreviation tryBlock := (tryBlock getGitApi).
#[local] Abbreviation providerBlock := (providerBlock getGitApi NODE_ENV).
#[local] Abbreviation createPlugin :=
  (createPlugin getGitApi createRouter NODE_ENV).

(** Whether a [try] block throws, and what, does not depend on the
    registries or the log. *)
Lemma tryBlock_throws_anywhere p providerConfig (w : world) e w' :
  tryBlock p providerConfig w = (Thrown e, w') →
  ∀ w0 : world, tryBlock p providerConfig w0 = (Thrown e, w0).
Proof.
  destruct p; simpl; intros Hthrown w0.
  - rewrite ScaffolderExtras.githubTry_run in *.
    destruct (getString providerConfig "visibility"); [by simplify_eq|].
    destruct (getString providerConfig "token"); by simplify_eq.
  - rewrite ScaffolderExtras.gitlabTry_run in *.
    destruct (getString providerConfig "token"); [by simplify_eq|].
    destruct (getOptionalString providerConfig "baseUrl"); by simplify_eq.
  - rewrite ScaffolderExtras.azureTry_run in *.
    destruct (getString providerConfig "baseUrl"); [by simplify_eq|].
    destruct (getConfig providerConfig "api") as [|api]; [by simplify_eq|].
    destruct (getString api "token"); [by simplify_eq|].
    destruct (getGitApi _); by simplify_eq.
Qed.

(** The keys of two providers are apart. *)
Lemma keys_apart p q :
  q ≠ p →
  (∀ k, k ∈ publisherKeys p → k ∉ publisherKeys q) ∧
  (∀ k, k ∈ preparerKeys p → k ∉ preparerKeys q).
Proof.
  intros Hne.
  destruct p, q; try (by destruct Hne); simpl; split; intros k Hk Hk';
    repeat match goal with
      | H : _ ∈ _ :: _ |- _ => apply elem_of_cons in H; destruct H as [H|H]
      | H : _ ∈ [] |- _ => apply elem_of_nil in H; destruct H
      end;
    simplify_eq.
Qed.

Lemma unbound_base p config (w : world) : unbound p (baseWorld config w).
Proof.
  split; intros k Hk; simpl; [done|].
  destruct p; simpl in Hk; try by apply elem_of_nil in Hk.
  apply list_elem_of_singleton in Hk as ->. done.
Qed.

Lemma unbound_other p q config (w : world) o w' :
  q ≠ p →
  providerBlock q config w = (o, w') →
  unbound p w → unbound p w'.
Proof.
  intros Hne Hrun [Hpublishers Hpreparers].
  apply ScaffolderExtras.providerBlock_frame in Hrun as (_ & Hpre & Hpub).
  destruct (keys_apart p q Hne) as [Hapart Hapart'].
  split; intros k Hk.
  - rewrite Hpub by by apply Hapart. by apply Hpublishers.
  - rewrite Hpre by by apply Hapart'. by apply Hpreparers.
Qed.

Lemma logged_kept q config (w : world) o w' msg :
  providerBlock q config w = (o, w') → msg ∈ log w → msg ∈ log w'.
Proof.
  intros Hrun Hmsg.
  apply ScaffolderExtras.providerBlock_log in Hrun as (new & -> & _).
  apply elem_of_app. by left.
Qed.

Lemma log_same q config (w : world) o w' :
  NODE_ENV ≠ Some "development" →
  providerBlock q config w = (o, w') → log w' = log w.
Proof.
  intros Hmode Hrun.
  apply ScaffolderExtras.providerBlock_log in Hrun as (new & -> & _ & Hnone).
  by rewrite Hnone, app_nil_r.
Qed.

(** C8 (as amended): when the configuration of an optional provider is
    present and its [try] block throws [e], the block has registered
    nothing, and what follows depends on [NODE_ENV], for each of the three
    providers.  In development the block logs "Skipping <provider>
    scaffolding provider, <message of e>" and completes with the registries
    as they were; [createPlugin] then goes on to [createRouter] (when every
    section can be read), with the warning in the log and none of the
    provider's keys bound.  Otherwise the block throws "Failed to
    initialize <provider> scaffolding provider, <message of e>" and logs
    nothing, and [createPlugin] throws: that error, or the error of an
    earlier provider block. *)
Theorem providerBlock_initialization_failure
    p config providerConfig (w : world) e w' :
  getOptionalConfig config (configKey p) = inr (Some providerConfig) →
  tryBlock p providerConfig w = (Thrown e, w') →
  w' = w ∧
  (NODE_ENV = Some "development" →
   (∀ w0 : world,
      providerBlock p config w0
        = (Returned tt, warned w0 (skipping (providerName p) e))) ∧
   (∀ w0 : world,
      (∀ q, ∃ section,
         getOptionalConfig config (configKey q) = inr section) →
      ∃ w1,
        createPlugin config w0 =
        (match createRouter (routerOptions w1) with
         | inl error => Thrown error
         | inr router => Returned router
         end, w1) ∧
        skipping (providerName p) e ∈ log w1 ∧
        (∀ k, k ∈ publisherKeys p → publishers w1 !! k = None) ∧
        (∀ k, k ∈ preparerKeys p → preparers w1 !! k = None))) ∧
  (NODE_ENV ≠ Some "development" →
   (∀ w0 : world,
      providerBlock p config w0
        = (Thrown (failedToInitialize (providerName p) e), w0)) ∧
   (∀ w0 : world,
      ∃ error w1,
        createPlugin config w0 = (Thrown error, w1) ∧
        log w1 = log w0 ∧
        (error = failedToInitialize (providerName p) e ∨
         ∃ q (w2 w3 : world),
           position q < position p ∧
           providerBlock q config w2 = (Thrown error, w3)))).
Proof.
  intros Hsection Hthrown.
  pose proof (ScaffolderSpec.tryBlock_thrown _ _ _ _ _ _ Hthrown) as ->.
  pose proof (tryBlock_throws_anywhere _ _ _ _ _ Hthrown) as Hthrows.
  split; [done|]. split; intros Hmode.
  - assert (∀ w0 : world,
              providerBlock p config w0
              = (Returned tt, warned w0 (skipping (providerName p) e)))
      as Hblock.
    { intros w0.
      rewrite (ScaffolderSpec.providerBlock_present _ _ _ _ _ _ Hsection).
      unfold try_catch. rewrite Hthrows.
      by apply ScaffolderSpec.catchBlock_development. }
    split; [done|]. intros w0 Hreadable.
    assert (∀ w2 : world,
              unbound p w2 →
              unbound p (warned w2 (skipping (providerName p) e)) ∧
              skipping (providerName p) e
                ∈ log (warned w2 (skipping (providerName p) e))) as Hself.
    { intros w2 Hunbound. split; [done|]. simpl.
      apply elem_of_app. right. by apply list_elem_of_singleton. }
    pose proof (unbound_base p config w0) as Hbase.
    rewrite ScaffolderExtras.createPlugin_run.
    destruct (ScaffolderSpec.providerBlock_development getGitApi NODE_ENV
                github config (baseWorld config w0) Hmode (Hreadable _))
      as [w1 H1].
    destruct (ScaffolderSpec.providerBlock_development getGitApi NODE_ENV
                gitlab config w1 Hmode (Hreadable _)) as [w2 H2].
    destruct (ScaffolderSpec.providerBlock_development getGitApi NODE_ENV
                azure config w2 Hmode (Hreadable _)) as [w3 H3].
    rewrite H1, H2, H3. exists w3. split; [done|].
    destruct p.
    + rewrite Hblock in H1. injection H1 as <-.
      destruct (Hself _ Hbase) as [Hu1 Hl1].
      pose proof (unbound_other github gitlab _ _ _ _ ltac:(done) H2 Hu1)
        as Hu2.
      pose proof (unbound_other github azure _ _ _ _ ltac:(done) H3 Hu2)
        as [? ?].
      split; [|done].
      by apply (logged_kept _ _ _ _ _ _ H3), (logged_kept _ _ _ _ _ _ H2).
    + pose proof (unbound_other gitlab github _ _ _ _ ltac:(done) H1 Hbase)
        as Hu1.
      rewrite Hblock in H2. injection H2 as <-.
      destruct (Hself _ Hu1) as [Hu2 Hl2].
      pose proof (unbound_other gitlab azure _ _ _ _ ltac:(done) H3 Hu2)
        as [? ?].
      split; [|done]. by apply (logged_kept _ _ _ _ _ _ H3).
    + pose proof (unbound_other azure github _ _ _ _ ltac:(done) H1 Hbase)
        as Hu1.
      pose proof (unbound_other azure gitlab _ _ _ _ ltac:(done) H2 Hu1)
        as Hu2.
      rewrite Hblock in H3. injection H3 as <-.
      by destruct (Hself _ Hu2) as [[? ?] ?].
  - assert (∀ w0 : world,
              providerBlock p config w0
              = (Thrown (failedToInitialize (providerName p) e), w0))
      as Hblock.
    { intros w0.
      rewrite (ScaffolderSpec.providerBlock_present _ _ _ _ _ _ Hsection).
      unfold try_catch. rewrite Hthrows.
      by apply ScaffolderSpec.catchBlock_otherwise. }
    split; [done|]. intros w0.
    rewrite ScaffolderExtras.createPlugin_run.
    destruct p.
    + rewrite Hblock. eexists _, _. split; [done|]. split; [done|]. by left.
    + destruct (providerBlock github config _) as [[[]|e1] w1] eqn:H1.
      * rewrite Hblock. eexists _, _. split; [done|].
        split; [by rewrite (log_same _ _ _ _ _ Hmode H1)|]. by left.
      * eexists _, _. split; [done|].
        split; [by rewrite (log_same _ _ _ _ _ Hmode H1)|].
        right. exists github, (baseWorld config w0), w1. simpl.
        split; [lia|done].
    + destruct (providerBlock github config _) as [[[]|e1] w1] eqn:H1.
      * destruct (providerBlock gitlab config _) as [[[]|e2] w2] eqn:H2.
        -- rewrite Hblock. eexists _, _. split; [done|].
           split; [|by left].
           by rewrite (log_same _ _ _ _ _ Hmode H2),
             (log_same _ _ _ _ _ Hmode H1).
        -- eexists _, _. split; [done|].
           split; [by rewrite (log_same _ _ _ _ _ Hmode H2),
                     (log_same _ _ _ _ _ Hmode H1)|].
           right. exists gitlab, w1, w2. simpl. split; [lia|done].
      * eexists _, _. split; [done|].
        split; [by rewrite (log_same _ _ _ _ _ Hmode H1)|].
        right. exists github, (baseWorld config w0), w1. simpl.
        split; [lia|done].
Qed.

End Plugin.

(** *** Runs on a GitHub section without [token] *)

Import Scenarios.

(** C8 in development and in production. *)
Lemma providerBlock_initialization_failure_github :
  (∃ w1 : @Scaffolder.world json string,
     createPlugin gitApiOf routerOf (Some "development") githubWithoutToken
       emptyWorld =
     (match routerOf (routerOptions w1) with
      | inl error => Thrown error
      | inr router => Returned router
      end, w1) ∧
     skipping "github" (missing "token") ∈ log w1 ∧
     (∀ k, k ∈ publisherKeys github → publishers w1 !! k = None) ∧
     (∀ k, k ∈ preparerKeys github → preparers w1 !! k = None)) ∧
  (∃ error (w1 : @Scaffolder.world json string),
     createPlugin gitApiOf routerOf (Some "production") githubWithoutToken
       emptyWorld = (Thrown error, w1) ∧
     log w1 = log emptyWorld ∧
     (error = failedToInitialize "github" (missing "token") ∨
      ∃ q (w2 w3 : @Scaffolder.world json string),
        position q < position github ∧
        providerBlock gitApiOf (Some "production") q githubWithoutToken w2
          = (Thrown error, w3))).
Proof.
  split.
  - destruct (providerBlock_initialization_failure gitApiOf routerOf
                (Some "development") github githubWithoutToken
                (only "visibility" (JString "public")) emptyWorld
                (missing "token") emptyWorld)
      as (_ & Hdevelopment & _); [reflexivity | reflexivity |].
    destruct (Hdevelopment eq_refl) as [_ Hplugin].
    apply (Hplugin emptyWorld). intros []; eexists; reflexivity.
  - destruct (providerBlock_initialization_failure gitApiOf routerOf
                (Some "production") github githubWithoutToken
                (only "visibility" (JString "public")) emptyWorld
                (missing "token") emptyWorld)
      as (_ & _ & Hproduction); [reflexivity | reflexivity |].
    destruct (Hproduction ltac:(discriminate)) as [_ Hplugin].
    apply (Hplugin emptyWorld).
Defined.

End ScaffolderFailure.
